(** * PySAR [_readfile.py]: attribute normalisation and windowed decoding

    A shallow embedding of [src/pysar/_readfile.py].  Python values are
    modelled as follows.

    - [str] is [string]; a [dict] with string keys and string values is a
      [gmap string string].
    - A raised exception is the [Raise] case of [result]; the exception
      classes are the constructors of [exn].
    - The file system and the libraries behind it (numpy, h5py,
      ElementTree, PIL) are a [world] record: what each call returns on
      each path.
    - An HDF5 file is the tree of its groups and datasets; the name of an
      object is taken as an HDF5 path, as h5py does.
    - A binary file is the sequence of the items [np.fromfile] finds in
      it, float32 samples of an abstract type [F] or int16 samples in [Z];
      [hypot] and [arctan2] on [F] are parameters.
    - A 2-D numpy array is the list of its rows.  Pixel coordinates of a
      box are natural numbers; arithmetic on them is done in [Z], as
      Python does on [int].
    - [WIDTH] and [FILE_LENGTH] are read as decimal numerals.

    The definitions keep the names and the order of the source; the
    properties follow them. *)

From Stdlib Require Import ZArith Ascii String List Lia Bool.
From stdpp Require Import gmap strings list fin_maps pretty.

Set Warnings "-register-all".

Open Scope string_scope.
Open Scope Z_scope.

(** ** Exceptions and results *)

Inductive exn : Type :=
| SystemExit
| KeyError (key : string)
| NameError (name : string)
| IndexError
| StopIteration
| ValueError
| TypeError
| AttributeError
| IOError.

Inductive result (A : Type) : Type :=
| Ok (a : A)
| Raise (e : exn).
Arguments Ok {A} a.
Arguments Raise {A} e.

Global Instance result_ret : MRet result := fun _ a => Ok a.
Global Instance result_bind : MBind result := fun _ _ k r =>
  match r with
  | Ok a => k a
  | Raise e => Raise e
  end.

(** ** Python string operations *)

Module Py.

(** [c in string.whitespace] *)
Definition is_space (c : ascii) : bool :=
  let n := nat_of_ascii c in
  ((9 <=? n)%nat && (n <=? 13)%nat) || (n =? 32)%nat.

Definition lower_ascii (c : ascii) : ascii :=
  let n := nat_of_ascii c in
  if ((65 <=? n)%nat && (n <=? 90)%nat) then ascii_of_nat (n + 32) else c.

(** [s.lower()] *)
Fixpoint lower (s : string) : string :=
  match s with
  | EmptyString => EmptyString
  | String c r => String (lower_ascii c) (lower r)
  end.

(** [s.startswith(c)] for a one-character prefix *)
Definition startswith (s : string) (c : ascii) : bool :=
  match s with
  | String d _ => Ascii.eqb c d
  | EmptyString => false
  end.

(** [s.lstrip()] *)
Fixpoint lstrip (s : string) : string :=
  match s with
  | String c r => if is_space c then lstrip r else s
  | EmptyString => EmptyString
  end.

(** [s.rstrip()] *)
Fixpoint rstrip (s : string) : string :=
  match s with
  | EmptyString => EmptyString
  | String c r =>
      match rstrip r with
      | EmptyString => if is_space c then EmptyString else String c EmptyString
      | r' => String c r'
      end
  end.

(** [s.strip()] *)
Definition strip (s : string) : string := rstrip (lstrip s).

(** [s.replace(c, '')] for a one-character pattern *)
Fixpoint remove_char (c : ascii) (s : string) : string :=
  match s with
  | EmptyString => EmptyString
  | String d r => if Ascii.eqb c d then remove_char c r else String d (remove_char c r)
  end.

(** [s.split(c)[0]]: the text before the first [c] *)
Fixpoint before (c : ascii) (s : string) : string :=
  match s with
  | EmptyString => EmptyString
  | String d r => if Ascii.eqb c d then EmptyString else String d (before c r)
  end.

(** [s.split()]: the maximal runs of non-whitespace characters.  [cur] is
    the run being read. *)
Fixpoint split_go (cur : option string) (s : string) : list string :=
  match s with
  | EmptyString =>
      match cur with
      | Some w => [w]
      | None => []
      end
  | String c r =>
      if is_space c then
        match cur with
        | Some w => w :: split_go None r
        | None => split_go None r
        end
      else
        match cur with
        | Some w => split_go (Some (w ++ String c EmptyString)) r
        | None => split_go (Some (String c EmptyString)) r
        end
  end.

Definition split (s : string) : list string := split_go None s.

(** The lines a file object yields: each keeps its newline; a last line
    without newline is yielded as it is. *)
Fixpoint lines_go (cur : string) (s : string) : list string :=
  match s with
  | EmptyString =>
      match cur with
      | EmptyString => []
      | _ => [cur]
      end
  | String c r =>
      let cur' := cur ++ String c EmptyString in
      if Ascii.eqb c "010"%char then cur' :: lines_go EmptyString r
      else lines_go cur' r
  end.

Definition lines (s : string) : list string := lines_go EmptyString s.

(** [os.path.splitext(p)], after [genericpath._splitext]: the extension
    starts at the last dot of the last path component, unless only dots
    precede it there. *)
Fixpoint rfind_go (c : ascii) (i : nat) (s : string) (last : option nat) : option nat :=
  match s with
  | EmptyString => last
  | String d r => rfind_go c (S i) r (if Ascii.eqb c d then Some i else last)
  end.

Definition rfind (c : ascii) (s : string) : option nat := rfind_go c 0 s None.

Fixpoint all_dots (s : string) : bool :=
  match s with
  | EmptyString => true
  | String d r => Ascii.eqb d "."%char && all_dots r
  end.

Definition splitext (p : string) : string * string :=
  match rfind "."%char p with
  | None => (p, EmptyString)
  | Some dot =>
      let name_start :=
        match rfind "/"%char p with
        | Some sep => S sep
        | None => O
        end in
      if (name_start <=? dot)%nat
         && negb (all_dots (String.substring name_start (dot - name_start) p))
      then (String.substring 0 dot p,
            String.substring dot (String.length p - dot) p)
      else (p, EmptyString)
  end.

(** [int(float(s))] and [float(s)] on the decimal numerals the sidecars
    hold for [WIDTH] and [FILE_LENGTH]; any other text is a [ValueError]. *)
Definition digit (c : ascii) : option nat :=
  let n := nat_of_ascii c in
  if ((48 <=? n)%nat && (n <=? 57)%nat) then Some (n - 48)%nat else None.

Fixpoint number_go (acc : nat) (s : string) : option nat :=
  match s with
  | EmptyString => Some acc
  | String c r =>
      match digit c with
      | Some d => number_go (10 * acc + d)%nat r
      | None => None
      end
  end.

Definition number (s : string) : result nat :=
  match s with
  | EmptyString => Raise ValueError
  | _ =>
      match number_go 0 s with
      | Some n => Ok n
      | None => Raise ValueError
      end
  end.

(** [str(n)] for an [int] *)
Definition str (n : Z) : string := pretty n.

(** [sorted(l)[0]]: the least string of [l] in the order of [str] *)
Definition str_min (a b : string) : string :=
  if String.leb a b then a else b.

Definition sorted_first (l : list string) : result string :=
  match l with
  | [] => Raise IndexError
  | a :: r => Ok (fold_left str_min r a)
  end.

(** [l[0]] *)
Definition first {A : Type} (l : list A) : result A :=
  match l with
  | a :: _ => Ok a
  | [] => Raise IndexError
  end.

(** [l[i:j]] for indices that are not negative *)
Definition slice {A : Type} (i j : nat) (l : list A) : list A :=
  firstn (j - i) (skipn i l).

(** [d[k]] *)
Definition getitem (d : gmap string string) (k : string) : result string :=
  match d !! k with
  | Some v => Ok v
  | None => Raise (KeyError k)
  end.

(** [x in l] *)
Definition isin (x : string) (l : list string) : bool := bool_decide (x ∈ l).

(** [s.split(sep)] for a one-character separator; [cur] is the piece
    being read. *)
Fixpoint split_on_go (sep : ascii) (cur s : string) : list string :=
  match s with
  | EmptyString => [cur]
  | String c r =>
      if Ascii.eqb c sep then cur :: split_on_go sep EmptyString r
      else split_on_go sep (cur ++ String c EmptyString) r
  end.

Definition split_on (sep : ascii) (s : string) : list string :=
  split_on_go sep EmptyString s.

(** [s.replace(old, new)] for a non-empty [old]: the occurrences of [old]
    are taken from the left and do not overlap; [skip] counts the
    characters of an occurrence still to be passed. *)
Fixpoint replace_go (old new : string) (skip : nat) (s : string) : string :=
  match s with
  | EmptyString => EmptyString
  | String c r =>
      match skip with
      | S k => replace_go old new k r
      | O =>
          if String.prefix old s
          then new ++ replace_go old new (String.length old - 1) r
          else String c (replace_go old new O r)
      end
  end.

Definition replace (old new s : string) : string := replace_go old new O s.

End Py.


(** ** numpy array operations *)

Module Np.

(** The rows of a C-ordered array of [rows] x [cols] items *)
Fixpoint chunks {A : Type} (rows cols : nat) (l : list A) : list (list A) :=
  match rows with
  | O => []
  | S r => firstn cols l :: chunks r cols (skipn cols l)
  end.

(** [a.reshape(rows, cols)] of the flat items [l]: a [ValueError] for a
    negative dimension or a size that does not fit *)
Definition reshape {A : Type} (rows cols : Z) (l : list A) : result (list (list A)) :=
  if (rows <? 0) || (cols <? 0) then Raise ValueError
  else if negb (Z.of_nat (length l) =? rows * cols) then Raise ValueError
  else Ok (chunks (Z.to_nat rows) (Z.to_nat cols) l).

(** [a[y0:y1, x0:x1]] *)
Definition slice2 {A : Type} (y0 y1 x0 x1 : nat) (a : list (list A)) : list (list A) :=
  map (Py.slice x0 x1) (Py.slice y0 y1 a).

(** The complex64 items of a file of float32 items: real, imaginary,
    real, imaginary, ...; a last half item is not an item. *)
Fixpoint pairs {A : Type} (l : list A) : list (A * A) :=
  match l with
  | a :: b :: r => (a, b) :: pairs r
  | _ => []
  end.

(** [l[range(0, len(l), 2)]] and [l[range(1, len(l), 2)]] *)
Fixpoint evens {A : Type} (l : list A) : list A :=
  match l with
  | a :: _ :: r => a :: evens r
  | [a] => [a]
  | [] => []
  end.

Fixpoint odds {A : Type} (l : list A) : list A :=
  match l with
  | _ :: b :: r => b :: odds r
  | _ => []
  end.

(** [a[i, j]], where it exists *)
Definition item {A : Type} (a : list (list A)) (i j : nat) : option A :=
  a !! i ≫= (fun r => r !! j).

(** [a] has [rows] rows of [cols] items. *)
Definition shape {A : Type} (rows cols : nat) (a : list (list A)) : Prop :=
  length a = rows /\ Forall (fun r => length r = cols) a.

(** [a] has at most [rows] rows of at most [cols] items. *)
Definition within {A : Type} (rows cols : nat) (a : list (list A)) : Prop :=
  (length a <= rows)%nat /\ Forall (fun r => (length r <= cols)%nat) a.

End Np.

(** ** Attributes *)

Abbreviation dict := (gmap string string).

(** A box [(x0, y0, x1, y1)] of pixel coordinates, which count from 0: a
    bound below 0, which numpy would count from the end of the axis, is
    not a box of this development. *)
Abbreviation box := (nat * nat * nat * nat)%type.

(** What [np.loadtxt(File, dtype=str)] returns: a 1-D array for a file of
    one row (or none), a 2-D array otherwise. *)
Inductive strarray : Type :=
| Str1D (row : list string)
| Str2D (rows : list (list string)).

(** A [property] element of an ISCE xml file: its [name] attribute and the
    text of its [value] child, where present. *)
Record property : Type := {
  prop_name : option string;
  prop_value : option string
}.

Section Readfile.

(** [F]: the float32 samples; [image]: what PIL holds for a picture. *)
Variable F : Type.
Variable image : Type.
Variables hypot arctan2 : F -> F -> F.

(** An object of an HDF5 file, as h5py shows it. *)
Inductive h5obj : Type :=
| Dataset (attrs : dict) (values : list (list F))
| Group (attrs : dict) (members : list (string * h5obj)).

(** What the calls on the file system and on the libraries return:
    [os.path.isfile(p)]; the text of [open(p)]; [np.loadtxt(p, dtype=str)];
    the [property] children of the root of [ET.parse(p)]; the root group of
    [h5py.File(p, 'r')]; all the items of [np.fromfile(p, np.float32)] and
    of [np.fromfile(p, np.int16)]; [Image.open(p)]; and [img.crop(box)]. *)
Record world : Type := {
  isfile : string -> bool;
  open_text : string -> result string;
  loadtxt : string -> result strarray;
  ET_parse : string -> result (list property);
  h5py_File : string -> result h5obj;
  fromfile_float32 : string -> result (list F);
  fromfile_int16 : string -> result (list Z);
  Image_open : string -> result image;
  Image_crop : image -> box -> image
}.

(** The member [name] of a group *)

Fixpoint assoc (name : string) (ms : list (string * h5obj)) : option h5obj :=
  match ms with
  | [] => None
  | (n, o) :: r => if String.eqb name n then Some o else assoc name r
  end.

(** [o.keys()] *)
Definition h5_keys (o : h5obj) : result (list string) :=
  match o with
  | Group _ ms => Ok (map fst ms)
  | Dataset _ _ => Raise AttributeError
  end.

(** h5py takes the name of an object as an HDF5 path.  Its steps are the
    names between the slashes; a doubled slash, a slash at the end and the
    step [.], which is the group itself, count for nothing. *)
Definition h5_steps (name : string) : list string :=
  List.filter (fun s => negb (String.eqb s "" || String.eqb s "."))
    (Py.split_on "/"%char name).

(** The object reached from [o] by the steps, each the name of a member of
    the group reached so far *)
Fixpoint h5_walk (o : h5obj) (steps : list string) : option h5obj :=
  match steps with
  | [] => Some o
  | s :: rest =>
      match o with
      | Group _ ms =>
          match assoc s ms with
          | Some x => h5_walk x rest
          | None => None
          end
      | Dataset _ _ => None
      end
  end.

(** The object that [name] refers to in the group [o] of the file whose
    root group is [file]: a name that starts with a slash is a path from
    the root group, any other a path from [o]. *)
Definition h5_lookup (file o : h5obj) (name : string) : option h5obj :=
  h5_walk (if Py.startswith name "/"%char then file else o) (h5_steps name).

(** [o[name]], for an object [o] of the file [file]: the library refuses
    the empty name, and a name without an object is a [KeyError]. *)
Definition h5_getitem (file o : h5obj) (name : string) : result h5obj :=
  match o with
  | Group _ _ =>
      if String.eqb name "" then Raise ValueError
      else match h5_lookup file o name with
           | Some x => Ok x
           | None => Raise (KeyError name)
           end
  | Dataset _ _ => Raise ValueError
  end.

(** [o.get(name)]: [o[name]], with [None] for its [KeyError] *)
Definition h5_get (file o : h5obj) (name : string) : result (option h5obj) :=
  match o with
  | Group _ _ =>
      if String.eqb name "" then Raise ValueError
      else Ok (h5_lookup file o name)
  | Dataset _ _ => Raise AttributeError
  end.

(** A name as a member of a group can have it: not empty, not [.], and
    without a slash *)
Definition link_name (name : string) : bool :=
  negb (String.eqb name "") && negb (String.eqb name ".")
  && forallb (fun c => negb (Ascii.eqb "/"%char c)) (list_ascii_of_string name).

(** [o.attrs] *)
Definition h5_attrs (o : h5obj) : dict :=
  match o with
  | Group a _ => a
  | Dataset a _ => a
  end.

(** [dict(rows)]: every row is a pair; a later key replaces an earlier one *)
Definition dict_row (d : result dict) (row : list string) : result dict :=
  d ← d;
  match row with
  | [k; v] => Ok (<[k := v]> d)
  | _ => Raise ValueError
  end.

Definition chars (s : string) : list string :=
  map (fun c => String c EmptyString) (list_ascii_of_string s).

Definition read_roipac_rsc (w : world) (File : string) : result dict :=
  a ← loadtxt w File;
  match a with
  | Str2D rows => fold_left dict_row rows (Ok ∅)
  | Str1D row => fold_left dict_row (map chars row) (Ok ∅)
  end.

Definition par_line (par_dict : dict) (line : string) : dict :=
  let l := Py.split line in
  match l with
  | l0 :: l1 :: _ =>
      if Py.startswith line "%"%char || Py.startswith line "#"%char
      then par_dict
      else <[Py.strip l0 :=
               Py.strip (Py.before "#"%char (Py.remove_char "010"%char l1))]> par_dict
  | _ => par_dict
  end.

Definition read_gamma_par (w : world) (File : string) : result dict :=
  f ← open_text w File;
  match Py.lines f with
  | _ :: _ :: rest =>
      let par_dict := fold_left par_line rest ∅ in
      width ← Py.getitem par_dict "range_samples:";
      let par_dict := <["WIDTH" := width]> par_dict in
      len ← Py.getitem par_dict "azimuth_lines:";
      Ok (<["FILE_LENGTH" := len]> par_dict)
  | _ => Raise StopIteration
  end.

Definition xml_child (d : result dict) (child : property) : result dict :=
  xmldict ← d;
  attrib ← match prop_name child with
           | Some n => Ok n
           | None => Raise (KeyError "name")
           end;
  value ← match prop_value child with
          | Some v => Ok v
          | None => Raise AttributeError
          end;
  Ok (<[attrib := value]> xmldict).

Definition read_isce_xml (w : world) (File : string) : result dict :=
  root ← ET_parse w File;
  xmldict ← fold_left xml_child root (Ok ∅);
  width ← Py.getitem xmldict "width";
  let xmldict := <["WIDTH" := width]> xmldict in
  len ← Py.getitem xmldict "length";
  Ok (<["FILE_LENGTH" := len]> xmldict).

Definition ext_of (File : string) : string := Py.lower (Py.splitext File).2.

Definition unit_of (file_type : string) : string :=
  if Py.isin file_type ["interferograms"; "wrapped"; ".unw"; ".int"; ".flat"]
  then "radian"
  else if Py.isin file_type ["timeseries"; "dem"; ".dem"; ".hgt"]
  then "m"
  else if Py.isin file_type ["velocity"]
  then "m/yr"
  else "1".

Definition read_attributes_h5 (w : world) (File : string) : result dict :=
  h5f ← h5py_File w File;
  k ← h5_keys h5f;
  let k := if Py.isin "interferograms" k then <[0%nat := "interferograms"]> k
           else if Py.isin "coherence" k then <[0%nat := "coherence"]> k
           else if Py.isin "timeseries" k then <[0%nat := "timeseries"]> k
           else k in
  k0 ← Py.first k;
  attrs ←
    (if Py.isin k0 ["interferograms"; "coherence"; "wrapped"] then
       g ← h5_getitem h5f h5f k0;
       ks ← h5_keys g;
       m ← Py.first ks;
       o ← h5_getitem h5f g m;
       Ok (h5_attrs o)
     else if Py.isin k0 ["dem"; "velocity"; "mask"; "temporal_coherence";
                         "rmse"; "timeseries"] then
       g ← h5_getitem h5f h5f k0;
       Ok (h5_attrs g)
     else Raise (NameError "attrs"));
  let atr : dict := attrs in
  let atr := <["PROCESSOR" := "pysar"]> atr in
  let atr := <["FILE_TYPE" := k0]> atr in
  if String.eqb k0 "timeseries" then
    match atr !! "ref_date" with
    | Some _ => Ok atr
    | None =>
        g ← h5_getitem h5f h5f k0;
        ks ← h5_keys g;
        d ← Py.sorted_first ks;
        Ok (<["ref_date" := d]> atr)
    end
  else Ok atr.

Definition tag (processor ext : string) (atr : dict) : dict :=
  <["FILE_TYPE" := ext]> (<["PROCESSOR" := processor]> atr).

Definition read_attributes (w : world) (File : string) : result dict :=
  let ext := ext_of File in
  if negb (isfile w File) then Raise SystemExit
  else
    atr ←
      (if Py.isin ext [".h5"; ".he5"] then read_attributes_h5 w File
       else if isfile w (File ++ ".rsc") then
         atr ← read_roipac_rsc w (File ++ ".rsc");
         Ok (tag "roipac" ext atr)
       else if isfile w (File ++ ".xml") then
         atr ← read_isce_xml w (File ++ ".xml");
         Ok (tag "isce" ext atr)
       else if isfile w (File ++ ".par") then
         atr ← read_gamma_par w (File ++ ".par");
         Ok (tag "gamma" ext atr)
       else if isfile w ((Py.splitext File).1 ++ ".par") then
         atr ← read_gamma_par w ((Py.splitext File).1 ++ ".par");
         Ok (tag "gamma" ext atr)
       else Raise SystemExit);
    file_type ← Py.getitem atr "FILE_TYPE";
    Ok (<["UNIT" := unit_of file_type]> atr).

(** ** Reading data *)

Definition width_of (atr : dict) : result nat :=
  s ← Py.getitem atr "WIDTH"; Py.number s.

Definition length_of (atr : dict) : result nat :=
  s ← Py.getitem atr "FILE_LENGTH"; Py.number s.

(** [read_float32(File)] and [read_float32(File, box)] *)
Definition read_float32 (w : world) (File : string) (b : option box)
  : result (list (list F) * list (list F) * dict) :=
  atr ← read_attributes w File;
  width ← width_of atr;
  len ← length_of atr;
  let '(x0, y0, x1, y1) :=
    match b with
    | None => (O, O, width, len)
    | Some b => b
    end in
  items ← fromfile_float32 w File;
  data ← Np.reshape (Z.of_nat y1) (2 * Z.of_nat width)
           (firstn (y1 * 2 * width) items);
  let amplitude := Np.slice2 y0 y1 x0 x1 data in
  let phase := Np.slice2 y0 y1 (width + x0) (width + x1) data in
  Ok (amplitude, phase, atr).

Inductive complex_float32 : Type :=
| AmpPhase (amplitude phase : list (list F)) (atr : dict)
| RealImag (data : list (list (F * F))) (atr : dict).

Definition read_complex_float32 (w : world) (File : string) (real_imag : Z)
  : result complex_float32 :=
  atr ← read_attributes w File;
  width ← width_of atr;
  len ← length_of atr;
  items ← fromfile_float32 w File;
  data ← Np.reshape (Z.of_nat len) (Z.of_nat width)
           (firstn (len * width) (Np.pairs items));
  if real_imag =? 0 then
    let amplitude := map (map (fun c => hypot c.1 c.2)) data in
    let phase := map (map (fun c => arctan2 c.2 c.1)) data in
    Ok (AmpPhase amplitude phase atr)
  else Ok (RealImag data atr).

Definition read_real_float32 (w : world) (File : string)
  : result (list (list F) * dict) :=
  atr ← read_attributes w File;
  width ← width_of atr;
  len ← length_of atr;
  items ← fromfile_float32 w File;
  data ← Np.reshape (Z.of_nat len) (Z.of_nat width) items;
  Ok (data, atr).

(** [read_complex_int16(File)] and [read_complex_int16(File, box)] *)
Definition read_complex_int16 (w : world) (File : string) (b : option box)
  : result (list (list (Z * Z)) * dict) :=
  atr ← read_attributes w File;
  width ← width_of atr;
  len ← length_of atr;
  let '(x0, y0, x1, y1) :=
    match b with
    | None => (O, O, width, len)
    | Some b => b
    end in
  let nlines := Z.of_nat y1 - Z.of_nat y0 in
  let WIDTH := Z.of_nat x1 - Z.of_nat x0 in
  items ← fromfile_int16 w File;
  data ← Np.reshape (Z.of_nat y1) (2 * Z.of_nat width)
           (firstn (y1 * 2 * width) items);
  data ← Np.reshape (2 * nlines * WIDTH) 1
           (concat (Np.slice2 y0 y1 (2 * x0) (2 * x1) data));
  real ← Np.reshape nlines WIDTH (Np.evens (concat data));
  imag ← Np.reshape nlines WIDTH (Np.odds (concat data));
  let data_cpx := zip_with (zip_with pair) real imag in
  Ok (data_cpx, atr).

Definition read_real_int16 (w : world) (File : string)
  : result (list (list Z) * dict) :=
  atr ← read_attributes w File;
  width ← width_of atr;
  len ← length_of atr;
  items ← fromfile_int16 w File;
  dem ← Np.reshape (Z.of_nat len) (Z.of_nat width) items;
  Ok (dem, atr).

(** The data [read] returns, and its return values: the integer [0], or
    a tuple of one or two data items and the attributes. *)
Inductive data : Type :=
| Float32 (a : list (list F))
| Int16 (a : list (list Z))
| Complex (a : list (list (Z * Z)))
| Picture (img : image).

Inductive retval : Type :=
| Ret0
| Ret2 (d : data) (atr : dict)
| Ret3 (d1 d2 : data) (atr : dict).

(** The number of data items returned, and the attributes returned *)
Definition nplanes (r : retval) : nat :=
  match r with
  | Ret0 => 0
  | Ret2 _ _ => 1
  | Ret3 _ _ _ => 2
  end.

Definition atr_of (r : retval) : option dict :=
  match r with
  | Ret0 => None
  | Ret2 _ atr => Some atr
  | Ret3 _ _ atr => Some atr
  end.

(** [a[box[1]:box[3], box[0]:box[2]]] if [box], else [a] *)
Definition crop {A : Type} (b : option box) (a : list (list A)) : list (list A) :=
  match b with
  | Some (x0, y0, x1, y1) => Np.slice2 y0 y1 x0 x1 a
  | None => a
  end.

(** [dset[...]] for what [get] returned *)
Definition h5_values (dset : option h5obj) : result (list (list F)) :=
  match dset with
  | Some (Dataset _ v) => Ok v
  | Some (Group _ _) => Raise TypeError
  | None => Raise TypeError
  end.

(** The dataset of the group [k], named by [epoch] in a group of several
    epochs: what [dset] is bound to *)
Definition h5_dset (h5file : h5obj) (k epoch : string) : result (option h5obj) :=
  if Py.isin k ["interferograms"; "coherence"; "wrapped"; "timeseries"] then
    g ← h5_getitem h5file h5file k;
    epochList ← h5_keys g;
    if Py.isin k ["timeseries"] then h5_get h5file g epoch
    else if Py.isin k ["interferograms"; "coherence"; "wrapped"] then
      e ← h5_getitem h5file g epoch;
      h5_get h5file e epoch
    else Raise (NameError "dset")
  else if Py.isin k ["dem"; "mask"; "rmse"; "temporal_coherence"; "velocity"] then
    g ← h5_getitem h5file h5file k;
    h5_get h5file g k
  else Raise (NameError "dset").

Definition read_h5 (w : world) (File : string) (atr : dict) (b : option box)
  (epoch : string) : result retval :=
  h5file ← h5py_File w File;
  k ← Py.getitem atr "FILE_TYPE";
  dset ← h5_dset h5file k epoch;
  v ← h5_values dset;
  Ok (Ret2 (Float32 (crop b v)) atr).

Definition read_isce (w : world) (File ext : string) (b : option box)
  : result retval :=
  '(data, atr) ←
    (if Py.isin ext [".flat"] then
       r ← read_complex_float32 w File 0;
       match r with
       | AmpPhase amp data atr => Ok (data, atr)
       | RealImag _ _ => Raise ValueError
       end
     else if Py.isin ext [".cor"] then read_real_float32 w File
     else if Py.isin ext [".slc"] then
       r ← read_complex_float32 w File 0;
       match r with
       | AmpPhase data pha atr => Ok (data, atr)
       | RealImag _ _ => Raise ValueError
       end
     else Raise (NameError "processfor"));
  Ok (Ret2 (Float32 (crop b data)) atr).

Definition read_roipac (w : world) (File ext : string) (b : option box)
  : result retval :=
  if Py.isin ext [".unw"; ".cor"; ".hgt"] then
    '(amp, pha, atr) ← read_float32 w File b;
    Ok (Ret2 (Float32 pha) atr)
  else if String.eqb ext ".dem" then
    '(dem, atr) ← read_real_int16 w File;
    Ok (Ret2 (Int16 (crop b dem)) atr)
  else if String.eqb ext ".int" then
    r ← read_complex_float32 w File 0;
    match r with
    | AmpPhase amp pha atr => Ok (Ret2 (Float32 (crop b pha)) atr)
    | RealImag _ _ => Raise ValueError
    end
  else if String.eqb ext ".trans" then
    '(rg, az, atr) ← read_float32 w File b;
    Ok (Ret3 (Float32 rg) (Float32 az) atr)
  else if String.eqb ext ".mli" then
    '(data, atr) ← read_real_float32 w File;
    Ok (Ret2 (Float32 (crop b data)) atr)
  else if String.eqb ext ".slc" then
    '(data, atr) ← read_complex_int16 w File b;
    Ok (Ret2 (Complex data) atr)
  else Raise (NameError "processfor").

(** [(box[2]-box[0])*(box[3]-box[1])] *)
Definition area (b : box) : Z :=
  let '(x0, y0, x1, y1) := b in
  (Z.of_nat x1 - Z.of_nat x0) * (Z.of_nat y1 - Z.of_nat y0).

(** The attributes after the step "Update attributes if subset".  The
    module imports [os], [sys], [h5py], [numpy], [ElementTree] and [Image]
    and binds no name [subset]: where the area of the box is less than
    that of the file, the call of [subset.subset_attributes] is the
    [NameError] of that name. *)
Definition update_attributes (atr : dict) (b : option box) : result dict :=
  match b with
  | Some b =>
      width ← width_of atr;
      len ← length_of atr;
      if area b <? Z.of_nat width * Z.of_nat len
      then Raise (NameError "subset")
      else Ok atr
  | None => Ok atr
  end.

Definition read (w : world) (File : string) (b : option box) (epoch : string)
  : result retval :=
  let ext := ext_of File in
  atr ← read_attributes w File;
  processor ← Py.getitem atr "PROCESSOR";
  atr ← update_attributes atr b;
  if Py.isin ext [".h5"; ".he5"] then read_h5 w File atr b epoch
  else if Py.isin ext [".jpeg"; ".jpg"; ".png"; ".ras"; ".bmp"] then
    atr ← read_roipac_rsc w (File ++ ".rsc");
    data ← Image_open w File;
    let data := match b with
                | Some b => Image_crop w data b
                | None => data
                end in
    Ok (Ret2 (Picture data) atr)
  else if String.eqb processor "isce" then read_isce w File ext b
  else if Py.isin processor ["roipac"; "gamma"] then read_roipac w File ext b
  else Ok Ret0.

(** The dataset [read] takes from a container is of the size that [WIDTH]
    and [FILE_LENGTH] declare: it has no more than [L] lines of [W]
    samples. *)
Definition declared_shape (w : world) (File epoch : string) (W L : nat) : Prop :=
  forall h5file k attrs v,
    h5py_File w File = Ok h5file ->
    h5_dset h5file k epoch = Ok (Some (Dataset attrs v)) ->
    Np.within L W v.

End Readfile.

Arguments Dataset {F} attrs values.
Arguments Group {F} attrs members.
Arguments AmpPhase {F} amplitude phase atr.
Arguments RealImag {F} data atr.
Arguments Float32 {F image} a.
Arguments Int16 {F image} a.
Arguments Complex {F image} a.
Arguments Picture {F image} img.
Arguments Ret0 {F image}.
Arguments Ret2 {F image} d atr.
Arguments Ret3 {F image} d1 d2 atr.
Arguments isfile {F image} w path : rename.
Arguments open_text {F image} w path : rename.
Arguments loadtxt {F image} w path : rename.
Arguments ET_parse {F image} w path : rename.
Arguments h5py_File {F image} w path : rename.
Arguments fromfile_float32 {F image} w path : rename.
Arguments fromfile_int16 {F image} w path : rename.
Arguments Image_open {F image} w path : rename.
Arguments Image_crop {F image} w img b : rename.
Arguments assoc {F} name ms.
Arguments h5_keys {F} o.
Arguments h5_steps name : simpl never.
Arguments h5_walk {F} o steps.
Arguments h5_lookup {F} file o name.
Arguments h5_getitem {F} file o name.
Arguments h5_get {F} file o name.
Arguments h5_attrs {F} o.
Arguments h5_values {F} dset.
Arguments read_roipac_rsc {F image} w File.
Arguments read_gamma_par {F image} w File.
Arguments read_isce_xml {F image} w File.
Arguments read_attributes_h5 {F image} w File.
Arguments read_attributes {F image} w File.
Arguments read_float32 {F image} w File b.
Arguments read_complex_float32 {F image} hypot arctan2 w File real_imag.
Arguments read_real_float32 {F image} w File.
Arguments read_complex_int16 {F image} w File b.
Arguments read_real_int16 {F image} w File.
Arguments read_h5 {F image} w File atr b epoch.
Arguments h5_dset {F} h5file k epoch.
Arguments nplanes {F image} r.
Arguments atr_of {F image} r.
Arguments crop {A} b a.
Arguments declared_shape {F image} w File epoch W L.
Arguments read_isce {F image} hypot arctan2 w File ext b.
Arguments read_roipac {F image} hypot arctan2 w File ext b.
Arguments read {F image} hypot arctan2 w File b epoch.

(** The arrays of a result of [read], sliced by a box; a picture is left
    as it is. *)
Definition crop_data {F image : Type} (bx : box) (d : data F image)
  : data F image :=
  match d with
  | Float32 a => Float32 (crop (Some bx) a)
  | Int16 a => Int16 (crop (Some bx) a)
  | Complex a => Complex (crop (Some bx) a)
  | Picture img => Picture img
  end.

Definition crop_retval {F image : Type} (bx : box) (r : retval F image)
  : retval F image :=
  match r with
  | Ret0 => Ret0
  | Ret2 d atr => Ret2 (crop_data bx d) atr
  | Ret3 d1 d2 atr => Ret3 (crop_data bx d1) (crop_data bx d2) atr
  end.

(** ** Templates and merged attributes *)

(** [merge_attribute(atr1, atr2)]: the items of [atr1], then those of
    [atr2], are stored in a new mapping. *)
Definition merge_attribute (atr1 atr2 : dict) : dict :=
  let atr : dict := map_fold (fun key value atr => <[key := value]> atr) ∅ atr1 in
  map_fold (fun key value atr => <[key := value]> atr) atr atr2.

Section Template.

(** [os.getenv] *)
Variable getenv : string -> option string.

(** [check_variable_name(path)]: [str.replace] with the [None] of a
    variable that is not set is a [TypeError]. *)
Definition check_variable_name (path : string) : result string :=
  let s := Py.before "/"%char path in
  match s with
  | String "$"%char name =>
      match getenv name with
      | Some p0 => Ok (Py.replace s p0 path)
      | None => Raise TypeError
      end
  | _ => Ok path
  end.

Definition template_line (d : result dict) (line : string) : result dict :=
  template_dict ← d;
  let c := Py.split_on "="%char line in
  match c with
  | c0 :: c1 :: _ =>
      if Py.startswith line "%"%char || Py.startswith line "#"%char
      then Ok template_dict
      else
        let atrName := Py.strip c0 in
        let atrValue :=
          Py.strip (Py.before "#"%char (Py.remove_char "010"%char c1)) in
        atrValue ← check_variable_name atrValue;
        Ok (<[atrName := atrValue]> template_dict)
  | _ => Ok template_dict
  end.

Definition read_template {F image : Type} (w : world F image) (File : string)
  : result dict :=
  f ← open_text w File;
  fold_left template_line (Py.lines f) (Ok ∅).

End Template.

(** ** Tokens of [split] *)

Fixpoint nospace (s : string) : bool :=
  match s with
  | EmptyString => true
  | String c r => negb (Py.is_space c) && nospace r
  end.

Definition token (t : string) : Prop := nospace t = true /\ t <> EmptyString.

(** ** Worlds for the examples

    Samples are integers there, pictures are not looked into, and the two
    float functions are stand-ins: nothing below depends on what they
    compute. *)

Module Examples.

Definition absent {A : Type} (path : string) : result A := Raise IOError.

Definition only {A : Type} (name : string) (a : A) (path : string) : result A :=
  if String.eqb path name then Ok a else Raise IOError.

Definition files (names : list string) (path : string) : bool :=
  Py.isin path names.

(** The values a mapping has under the keys [ks] *)
Definition at_keys (ks : list string) (r : result dict)
  : result (list (option string)) :=
  d ← r; Ok (map (fun k => d !! k) ks).

(** The data items [read] returned, and the attributes under [ks] *)
Definition view {F image : Type} (ks : list string) (r : result (retval F image))
  : result (list (data F image) * list (option string)) :=
  r ← r;
  match r with
  | Ret0 => Ok ([], [])
  | Ret2 d atr => Ok ([d], map (fun k => atr !! k) ks)
  | Ret3 d1 d2 atr => Ok ([d1; d2], map (fun k => atr !! k) ks)
  end.

(** The two planes of a decoder's result *)
Definition planes {A B C : Type} (r : result (A * B * C)) : result (A * B) :=
  '(a, b, _) ← r; Ok (a, b).

(** The plane of a decoder's result *)
Definition plane {A C : Type} (r : result (A * C)) : result A :=
  '(a, _) ← r; Ok a.

Definition hyp (a b : Z) : Z := a * a + b * b.
Definition arc (a b : Z) : Z := a - b.

Definition nl : string := String "010"%char EmptyString.

(** The positional-parameter file ["dummy\ndummy\nrange_samples: 100\nazimuth_lines: 50\n"] *)
Definition par_text : string :=
  "dummy" ++ nl ++ "dummy" ++ nl ++ "range_samples: 100" ++ nl
  ++ "azimuth_lines: 50" ++ nl.

Definition gamma_world (text : string) : world Z unit :=
  {| isfile := files ["a.slc"; "a.slc.par"];
     open_text := only "a.slc.par" text;
     loadtxt := absent;
     ET_parse := absent;
     h5py_File := absent;
     fromfile_float32 := absent;
     fromfile_int16 := absent;
     Image_open := absent;
     Image_crop := fun i _ => i |}.

(** A ROI_PAC file [name] with the rows [rsc] in [name.rsc] and the
    items [f32] (read as float32) or [i16] (read as int16) *)
Definition roipac_world (name : string) (rsc : list (list string))
  (f32 i16 : list Z) : world Z unit :=
  {| isfile := files [name; name ++ ".rsc"];
     open_text := absent;
     loadtxt := only (name ++ ".rsc") (Str2D rsc);
     ET_parse := absent;
     h5py_File := absent;
     fromfile_float32 := only name f32;
     fromfile_int16 := only name i16;
     Image_open := absent;
     Image_crop := fun i _ => i |}.

(** Two lines of two samples; the sidecar also holds a [UNIT]. *)
Definition rsc22 : list (list string) :=
  [["WIDTH"; "2"]; ["FILE_LENGTH"; "2"]; ["UNIT"; "dB"]].

Definition unw_world : world Z unit :=
  roipac_world "a.unw" rsc22 [1; 2; 3; 4; 5; 6; 7; 8] [].

Definition trans_world : world Z unit :=
  roipac_world "a.trans" rsc22 [1; 2; 3; 4; 5; 6; 7; 8] [].

(** The same file with other samples in its second line *)
Definition unw_world' : world Z unit :=
  roipac_world "a.unw" rsc22 [1; 2; 3; 4; 0; 0; 0; 0] [].

(** An interferogram of one line of two samples, [3+4j] at each *)
Definition int_world : world Z unit :=
  roipac_world "a.int" [["WIDTH"; "2"]; ["FILE_LENGTH"; "1"]] [3; 4; 3; 4] [].

(** A GAMMA single-look complex file read by way of an [.rsc] sidecar *)
Definition slc_world (i16 : list Z) : world Z unit :=
  roipac_world "a.slc" rsc22 [] i16.

(** A container [name] with the root group [root] *)
Definition h5_world (name : string) (root : h5obj Z) : world Z unit :=
  {| isfile := files [name];
     open_text := absent;
     loadtxt := absent;
     ET_parse := absent;
     h5py_File := only name root;
     fromfile_float32 := absent;
     fromfile_int16 := absent;
     Image_open := absent;
     Image_crop := fun i _ => i |}.

Definition attrs22 : dict :=
  <["WIDTH" := "2"]> (<["FILE_LENGTH" := "2"]> ∅).

Definition velocity_world : world Z unit :=
  h5_world "v.h5"
    (Group ∅ [("velocity",
               Group attrs22 [("velocity", Dataset ∅ [[1; 2]; [3; 4]])])]).

(** A velocity file whose attributes declare one sample per line *)
Definition narrow_world : world Z unit :=
  h5_world "v.h5"
    (Group ∅ [("velocity",
               Group (<["WIDTH" := "1"]> attrs22)
                 [("velocity", Dataset ∅ [[1; 2]; [3; 4]])])]).

Definition timeseries_world : world Z unit :=
  h5_world "ts.h5"
    (Group ∅ [("timeseries",
               Group attrs22 [("20100101", Dataset ∅ [[1; 2]; [3; 4]])])]).

Definition interferograms_world : world Z unit :=
  h5_world "ifg.h5"
    (Group ∅ [("interferograms",
               Group ∅ [("d1-d2",
                         Group attrs22
                           [("d1-d2", Dataset ∅ [[1; 2]; [3; 4]])])])]).

(** A time series of two epochs, without a [ref_date] *)
Definition epochs_group : h5obj Z :=
  Group attrs22 [("20100201", Dataset ∅ [[5; 6]; [7; 8]]);
                 ("20100101", Dataset ∅ [[1; 2]; [3; 4]])].

Definition epochs_world : world Z unit :=
  h5_world "ts.h5" (Group ∅ [("timeseries", epochs_group)]).

(** An [.rsc] sidecar of the one row [WIDTH 100] *)
Definition one_row_world : world Z unit :=
  {| isfile := files ["a.unw"; "a.unw.rsc"];
     open_text := absent;
     loadtxt := only "a.unw.rsc" (Str1D ["WIDTH"; "100"]);
     ET_parse := absent;
     h5py_File := absent;
     fromfile_float32 := absent;
     fromfile_int16 := absent;
     Image_open := absent;
     Image_crop := fun i _ => i |}.

(** An ISCE file [name] with the properties [props] in [name.xml] and
    the float32 items [f32] *)
Definition isce_world (name : string) (props : list (string * string))
  (f32 : list Z) : world Z unit :=
  {| isfile := files [name; name ++ ".xml"];
     open_text := absent;
     loadtxt := absent;
     ET_parse :=
       only (name ++ ".xml")
         (map (fun p => {| prop_name := Some p.1; prop_value := Some p.2 |})
            props);
     h5py_File := absent;
     fromfile_float32 := only name f32;
     fromfile_int16 := absent;
     Image_open := absent;
     Image_crop := fun i _ => i |}.

Definition interferograms_root : h5obj Z :=
  Group ∅ [("interferograms",
            Group ∅ [("d1-d2",
                      Group attrs22
                        [("d1-d2", Dataset ∅ [[1; 2]; [3; 4]])])])].

End Examples.

(** * Properties *)

#[local] Arguments Ascii.eqb : simpl never.
#[local] Arguments String.eqb : simpl never.

Lemma nospace_snoc w c :
  nospace w = true -> Py.is_space c = false ->
  nospace (w ++ String c EmptyString) = true.
Proof.
  induction w as [|d w IH]; simpl; intros Hw Hc.
  - by rewrite Hc.
  - apply andb_true_iff in Hw as [-> Hw]. simpl. by apply IH.
Qed.

Lemma snoc_nonempty (w : string) c : w ++ String c EmptyString <> EmptyString.
Proof. by destruct w. Qed.

Lemma split_go_tokens s : forall cur,
  (forall w, cur = Some w -> token w) -> Forall token (Py.split_go cur s).
Proof.
  induction s as [|c s IH]; intros cur Hcur; simpl.
  - destruct cur as [w|]; constructor; auto.
  - destruct (Py.is_space c) eqn:Hc.
    + destruct cur as [w|].
      * constructor; [by apply Hcur | by apply IH].
      * by apply IH.
    + destruct cur as [w|]; apply IH; intros w' [= <-].
      * destruct (Hcur w eq_refl) as [Hw _].
        split; [by apply nospace_snoc | apply snoc_nonempty].
      * split; [simpl; by rewrite Hc | done].
Qed.

Lemma split_tokens s : Forall token (Py.split s).
Proof. apply split_go_tokens. intros w [=]. Qed.

Lemma lstrip_nospace t : nospace t = true -> Py.lstrip t = t.
Proof.
  destruct t as [|c t]; simpl; [done|].
  intros [Hc _]%andb_true_iff. by apply negb_true_iff in Hc as ->.
Qed.

Lemma rstrip_nospace t : nospace t = true -> Py.rstrip t = t.
Proof.
  induction t as [|c t IH]; simpl; [done|].
  intros [Hc Ht]%andb_true_iff. rewrite (IH Ht).
  apply negb_true_iff in Hc as ->. by destruct t.
Qed.

Lemma strip_nospace t : nospace t = true -> Py.strip t = t.
Proof.
  intros Ht. unfold Py.strip. rewrite (lstrip_nospace _ Ht).
  by apply rstrip_nospace.
Qed.

Lemma remove_newline_nospace t :
  nospace t = true -> Py.remove_char "010"%char t = t.
Proof.
  induction t as [|c t IH]; simpl; [done|].
  intros [Hc Ht]%andb_true_iff. rewrite (IH Ht).
  destruct (Ascii.eqb_spec "010"%char c) as [<-|]; [|done].
  by vm_compute in Hc.
Qed.

Lemma before_nospace c t : nospace t = true -> nospace (Py.before c t) = true.
Proof.
  induction t as [|d t IH]; simpl; [done|].
  intros [Hd Ht]%andb_true_iff.
  destruct (Ascii.eqb c d); simpl; [done|]. by rewrite Hd, IH.
Qed.

(** A line of a parameter file that is kept: its first token is the key,
    as it stands, and its second token up to the first [#] is the value. *)
Lemma par_line_kept (d : dict) line l0 l1 toks :
  Py.split line = l0 :: l1 :: toks ->
  Py.startswith line "%"%char = false ->
  Py.startswith line "#"%char = false ->
  par_line d line = <[l0 := Py.before "#"%char l1]> d.
Proof.
  intros Hs Hp Hh. unfold par_line. rewrite Hs, Hp, Hh. simpl.
  pose proof (split_tokens line) as Ht. rewrite Hs in Ht.
  apply Forall_cons in Ht as [[H0 _] Ht].
  apply Forall_cons in Ht as [[H1 _] _].
  rewrite (strip_nospace _ H0), (remove_newline_nospace _ H1).
  by rewrite (strip_nospace _ (before_nospace _ _ H1)).
Qed.

Lemma par_line_skipped (d : dict) line :
  (length (Py.split line) < 2)%nat \/ Py.startswith line "%"%char = true
  \/ Py.startswith line "#"%char = true ->
  par_line d line = d.
Proof.
  unfold par_line. intros [Hl | [-> | ->]].
  - destruct (Py.split line) as [|? [|? ?]]; simpl in *; [done|done|lia].
  - by destruct (Py.split line) as [|? [|? ?]].
  - destruct (Py.split line) as [|? [|? ?]]; [done|done|].
    by rewrite orb_true_r.
Qed.

(** ** The error monad *)

Lemma bind_Ok {A B : Type} (r : result A) (k : A -> result B) b :
  r ≫= k = Ok b -> exists a, r = Ok a /\ k a = Ok b.
Proof. destruct r as [a|e]; [eauto | discriminate]. Qed.

Lemma getitem_Ok (d : dict) k v : Py.getitem d k = Ok v <-> d !! k = Some v.
Proof.
  unfold Py.getitem. destruct (d !! k); split; intros [=]; by subst.
Qed.

Lemma isin_true x l : Py.isin x l = true <-> x ∈ l.
Proof. apply bool_decide_eq_true. Qed.

Lemma isin_false x l : Py.isin x l = false <-> x ∉ l.
Proof. apply bool_decide_eq_false. Qed.

(** ** Strings without the separator *)

Lemma string_app_nil_r (s : string) : s ++ EmptyString = s.
Proof.
  induction s as [|c s IH]; [done|].
  change (String c (s ++ EmptyString) = String c s). by f_equal.
Qed.

Lemma string_app_assoc (a b c : string) : (a ++ b) ++ c = a ++ (b ++ c).
Proof.
  induction a as [|x a IH]; [done|].
  change (String x ((a ++ b) ++ c) = String x (a ++ (b ++ c))). by f_equal.
Qed.

Lemma split_on_go_plain sep (k : string) : forall cur s,
  sep ∉ list_ascii_of_string k ->
  Py.split_on_go sep cur (k ++ s) = Py.split_on_go sep (cur ++ k) s.
Proof.
  induction k as [|c k IH]; intros cur s Hk; simpl.
  - by rewrite string_app_nil_r.
  - simpl in Hk. apply not_elem_of_cons in Hk as [Hne Hk].
    destruct (Ascii.eqb_spec c sep) as [->|_]; [done|].
    rewrite IH by done. f_equal.
    by rewrite string_app_assoc.
Qed.

Lemma split_on_none sep (line : string) :
  sep ∉ list_ascii_of_string line -> Py.split_on sep line = [line].
Proof.
  intros H. unfold Py.split_on.
  rewrite <- (string_app_nil_r line) at 1.
  by rewrite split_on_go_plain.
Qed.

Lemma not_in_chars c (s : string) :
  forallb (fun x => negb (Ascii.eqb c x)) (list_ascii_of_string s) = true ->
  c ∉ list_ascii_of_string s.
Proof.
  induction (list_ascii_of_string s) as [|x l IH]; simpl.
  - intros _. apply not_elem_of_nil.
  - intros [Hx Hl]%andb_true_iff. apply not_elem_of_cons. split; [|by apply IH].
    intros ->. by rewrite Ascii.eqb_refl in Hx.
Qed.

(** Splits a successful sequence of binds in hypothesis [H]. *)
Ltac bind_inv H :=
  let a := fresh "a" in
  let E := fresh "E" in
  apply bind_Ok in H as (a & E & H).

(** ** The positional-parameter parser (C4) *)

Section GammaPar.
Context {F image : Type}.
Implicit Types (w : world F image) (d : dict).

(** C4, as amended: [read_gamma_par] skips two lines, or raises
    [StopIteration] where there are fewer.  Of the other lines it keeps
    those of two tokens or more that start with neither [%] nor [#]; for a
    line kept, token 0 is the key as it stands, trailing colon included,
    and token 1 up to its first [#] is the value.  [WIDTH] is then the value
    under [range_samples:] and [FILE_LENGTH] the value under
    [azimuth_lines:], and a [KeyError] that names the key is raised where
    one of them is not there. *)
Theorem read_gamma_par_spec w File f :
  open_text w File = Ok f ->
  ((length (Py.lines f) < 2)%nat -> read_gamma_par w File = Raise StopIteration)
  /\ (forall h1 h2 rest, Py.lines f = h1 :: h2 :: rest ->
      let par_dict := fold_left par_line rest ∅ in
      read_gamma_par w File =
        match par_dict !! "range_samples:", par_dict !! "azimuth_lines:" with
        | Some width, Some len =>
            Ok (<["FILE_LENGTH" := len]> (<["WIDTH" := width]> par_dict))
        | Some _, None => Raise (KeyError "azimuth_lines:")
        | None, _ => Raise (KeyError "range_samples:")
        end)
  /\ (forall d line l0 l1 toks,
      Py.split line = l0 :: l1 :: toks ->
      Py.startswith line "%"%char = false ->
      Py.startswith line "#"%char = false ->
      par_line d line = <[l0 := Py.before "#"%char l1]> d)
  /\ (forall d line,
      (length (Py.split line) < 2)%nat \/ Py.startswith line "%"%char = true
      \/ Py.startswith line "#"%char = true ->
      par_line d line = d).
Proof.
  intros Hf. unfold read_gamma_par. rewrite Hf. cbn [mbind result_bind].
  split; [|split; [|split]].
  - destruct (Py.lines f) as [|? [|? ?]]; simpl; [done|done|lia].
  - intros h1 h2 rest ->. cbn zeta. unfold Py.getitem.
    destruct (fold_left par_line rest ∅ !! "range_samples:") as [wd|] eqn:Hw;
      [|done].
    cbn [mbind result_bind].
    rewrite lookup_insert_ne by done.
    by destruct (fold_left par_line rest ∅ !! "azimuth_lines:").
  - intros. by eapply par_line_kept.
  - intros. by apply par_line_skipped.
Qed.

End GammaPar.

(** The file of the example yields [WIDTH = "100"], [FILE_LENGTH = "50"]. *)
Lemma read_gamma_par_example :
  Examples.at_keys ["WIDTH"; "FILE_LENGTH"]
    (read_gamma_par (Examples.gamma_world Examples.par_text) "a.slc.par")
  = Ok [Some "100"; Some "50"].
Proof.
  destruct (read_gamma_par_spec (Examples.gamma_world Examples.par_text)
              "a.slc.par" Examples.par_text eq_refl) as (_ & H & _).
  assert (Hl : Py.lines Examples.par_text
               = ["dummy" ++ Examples.nl; "dummy" ++ Examples.nl;
                  "range_samples: 100" ++ Examples.nl;
                  "azimuth_lines: 50" ++ Examples.nl])
    by (vm_compute; reflexivity).
  rewrite (H _ _ _ Hl). vm_compute. reflexivity.
Defined.

(** C4, as stated, fails: the key of the example's first row is
    [range_samples:], colon kept, and no key [range_samples] exists; and a
    file without lines fails with [StopIteration], not with a missing key. *)
Lemma read_gamma_par_keeps_colon :
  Examples.at_keys ["range_samples"; "range_samples:"]
    (read_gamma_par (Examples.gamma_world Examples.par_text) "a.slc.par")
  = Ok [None; Some "100"]
  /\ read_gamma_par (Examples.gamma_world "") "a.slc.par" = Raise StopIteration.
Proof. split; vm_compute; reflexivity. Qed.

(** ** Attribute normalisation (C7, C9) *)

Section Attributes.
Context {F image : Type}.
Implicit Types (w : world F image) (atr raw : dict).

Lemma tag_lookup p ext raw :
  tag p ext raw !! "PROCESSOR" = Some p /\ tag p ext raw !! "FILE_TYPE" = Some ext.
Proof.
  unfold tag. split.
  - rewrite lookup_insert_ne by done. apply lookup_insert_eq.
  - apply lookup_insert_eq.
Qed.

Lemma read_attributes_h5_tags w File raw :
  read_attributes_h5 w File = Ok raw ->
  raw !! "PROCESSOR" = Some "pysar" /\ exists k0, raw !! "FILE_TYPE" = Some k0.
Proof.
  unfold read_attributes_h5. intros H.
  bind_inv H. bind_inv H. bind_inv H. bind_inv H.
  set (base := <["FILE_TYPE":=a1]> (<["PROCESSOR":="pysar"]> a2)) in H.
  assert (Hb : base !! "PROCESSOR" = Some "pysar"
               /\ base !! "FILE_TYPE" = Some a1).
  { subst base. split; [rewrite lookup_insert_ne by done|];
      apply lookup_insert_eq. }
  destruct (String.eqb a1 "timeseries"); [|injection H as <-; naive_solver].
  destruct (base !! "ref_date"); [injection H as <-; naive_solver|].
  bind_inv H. bind_inv H. bind_inv H. injection H as <-.
  rewrite !lookup_insert_ne by done. naive_solver.
Qed.

(** What a successful [read_attributes] returns: the sidecar's mapping
    with [PROCESSOR] and [FILE_TYPE] set, and [UNIT] set last. *)
Lemma read_attributes_inv w File atr :
  read_attributes w File = Ok atr ->
  exists raw p ft,
    atr = <["UNIT" := unit_of ft]> raw
    /\ raw !! "FILE_TYPE" = Some ft
    /\ raw !! "PROCESSOR" = Some p
    /\ ((Py.isin (ext_of File) [".h5"; ".he5"] = true /\ p = "pysar")
        \/ (Py.isin (ext_of File) [".h5"; ".he5"] = false
            /\ p ∈ ["roipac"; "isce"; "gamma"] /\ ft = ext_of File)).
Proof.
  unfold read_attributes. intros H.
  destruct (isfile w File); [|discriminate]. cbn [negb] in H.
  bind_inv H. bind_inv H. injection H as <-.
  apply getitem_Ok in E0.
  destruct (Py.isin (ext_of File) [".h5"; ".he5"]) eqn:Hext.
  { apply read_attributes_h5_tags in E as [Hp [k0 Hk]].
    exists a, "pysar", a0. naive_solver. }
  assert (Hflat : forall p raw, p ∈ ["roipac"; "isce"; "gamma"] ->
            a = tag p (ext_of File) raw ->
            exists raw p ft,
              <["UNIT":=unit_of a0]> a = <["UNIT":=unit_of ft]> raw
              /\ raw !! "FILE_TYPE" = Some ft /\ raw !! "PROCESSOR" = Some p
              /\ ((false = true /\ p = "pysar")
                  \/ (false = false /\ p ∈ ["roipac"; "isce"; "gamma"]
                      /\ ft = ext_of File))).
  { intros p raw Hp ->. destruct (tag_lookup p (ext_of File) raw) as [H1 H2].
    rewrite H2 in E0. injection E0 as <-.
    exists (tag p (ext_of File) raw), p, (ext_of File). naive_solver. }
  repeat match type of E with
         | (if ?c then _ else _) = _ => destruct c
         end; try discriminate;
    bind_inv E; injection E as <-; eapply Hflat; try reflexivity; set_solver.
Qed.

Lemma read_attributes_unit w File atr :
  read_attributes w File = Ok atr ->
  exists ft, atr !! "FILE_TYPE" = Some ft /\ atr !! "UNIT" = Some (unit_of ft).
Proof.
  intros (raw & p & ft & -> & Hft & _)%read_attributes_inv.
  exists ft. rewrite lookup_insert_ne by done. split; [done|].
  apply lookup_insert_eq.
Qed.

(** C7: after a successful [read_attributes], [UNIT] is read off
    [FILE_TYPE]: [radian] for [interferograms], [wrapped], [.unw], [.int]
    and [.flat]; [m] for [timeseries], [dem], [.dem] and [.hgt]; [m/yr]
    for [velocity]; and [1] for every other file type. *)
Theorem read_attributes_unit_table w File atr :
  read_attributes w File = Ok atr ->
  exists ft, atr !! "FILE_TYPE" = Some ft
    /\ (ft ∈ ["interferograms"; "wrapped"; ".unw"; ".int"; ".flat"] ->
        atr !! "UNIT" = Some "radian")
    /\ (ft ∈ ["timeseries"; "dem"; ".dem"; ".hgt"] -> atr !! "UNIT" = Some "m")
    /\ (ft = "velocity" -> atr !! "UNIT" = Some "m/yr")
    /\ (ft ∉ ["interferograms"; "wrapped"; ".unw"; ".int"; ".flat";
              "timeseries"; "dem"; ".dem"; ".hgt"; "velocity"] ->
        atr !! "UNIT" = Some "1").
Proof.
  intros (ft & Hft & Hu)%read_attributes_unit. exists ft.
  split; [done|]. rewrite Hu. clear.
  split; [|split; [|split]].
  - intros H. unfold unit_of. by apply isin_true in H as ->.
  - intros H. repeat (apply elem_of_cons in H as [->|H]; [reflexivity|]).
    by apply elem_of_nil in H.
  - by intros ->.
  - intros H. unfold unit_of.
    rewrite !(proj2 (isin_false _ _)); [done|set_solver..].
Qed.

(** C9: [UNIT] depends on [FILE_TYPE] alone.  It is set after the sidecar
    or the container has been read, so a [UNIT] found there is replaced;
    two successful calls that agree on [FILE_TYPE] agree on [UNIT]. *)
Theorem read_attributes_unit_overwritten w File atr :
  read_attributes w File = Ok atr ->
  (exists raw ft, atr = <["UNIT" := unit_of ft]> raw
     /\ raw !! "FILE_TYPE" = Some ft
     /\ atr !! "FILE_TYPE" = Some ft
     /\ atr !! "UNIT" = Some (unit_of ft))
  /\ (forall w' File' atr', read_attributes w' File' = Ok atr' ->
      atr !! "FILE_TYPE" = atr' !! "FILE_TYPE" ->
      atr !! "UNIT" = atr' !! "UNIT").
Proof.
  intros H. split.
  - destruct (read_attributes_inv _ _ _ H) as (raw & p & ft & -> & Hft & _).
    exists raw, ft. split; [done|]. split; [done|].
    rewrite lookup_insert_ne by done. split; [done|]. apply lookup_insert_eq.
  - intros w' File' atr' H' Heq.
    destruct (read_attributes_unit _ _ _ H) as (ft & Hft & ->).
    destruct (read_attributes_unit _ _ _ H') as (ft' & Hft' & ->).
    congruence.
Qed.

End Attributes.

(** The sidecar [a.unw.rsc] yields the file type [.unw] and the unit
    [radian]. *)
Lemma read_attributes_unit_table_example :
  Examples.at_keys ["FILE_TYPE"; "UNIT"]
    (read_attributes Examples.unw_world "a.unw")
  = Ok [Some ".unw"; Some "radian"].
Proof.
  assert (Hk : Examples.at_keys ["FILE_TYPE"]
                 (read_attributes Examples.unw_world "a.unw")
               = Ok [Some ".unw"]) by (vm_compute; reflexivity).
  destruct (read_attributes Examples.unw_world "a.unw") as [atr|e] eqn:E;
    [|discriminate].
  destruct (read_attributes_unit_table _ _ _ E) as (ft & Hft & Hrad & _).
  injection Hk as Hk. rewrite Hft in Hk. injection Hk as ->.
  cbn. rewrite Hft, Hrad; [done|set_solver].
Defined.

(** The sidecar [a.unw.rsc] holds [UNIT dB]; the unit returned is that
    of the file type. *)
Lemma read_attributes_unit_overwritten_example :
  Examples.at_keys ["UNIT"] (read_attributes Examples.unw_world "a.unw")
  = Ok [Some (unit_of ".unw")].
Proof.
  assert (Hk : Examples.at_keys ["FILE_TYPE"]
                 (read_attributes Examples.unw_world "a.unw")
               = Ok [Some ".unw"]) by (vm_compute; reflexivity).
  destruct (read_attributes Examples.unw_world "a.unw") as [atr|e] eqn:E;
    [|discriminate].
  destruct (read_attributes_unit_overwritten _ _ _ E)
    as [(raw & ft & _ & _ & Hft & Hu) _].
  injection Hk as Hk. rewrite Hft in Hk. injection Hk as ->.
  cbn. by rewrite Hu.
Defined.

(** The width and the length of a file, from the text of its [WIDTH] and
    [FILE_LENGTH] *)
Lemma attributes_at_keys {F image : Type} (w : world F image) File sw sl W L :
  Examples.at_keys ["WIDTH"; "FILE_LENGTH"] (read_attributes w File)
  = Ok [Some sw; Some sl] ->
  Py.number sw = Ok W -> Py.number sl = Ok L ->
  exists atr, read_attributes w File = Ok atr
    /\ width_of atr = Ok W /\ length_of atr = Ok L.
Proof.
  intros Hk Hw Hl.
  destruct (read_attributes w File) as [atr|e]; [|discriminate].
  exists atr. split; [done|]. injection Hk as Hkw Hkl.
  unfold width_of, length_of, Py.getitem. by rewrite Hkw, Hkl.
Qed.

(** ** Arrays *)

Lemma slice_all {A : Type} n (l : list A) :
  (length l <= n)%nat -> Py.slice 0 n l = l.
Proof.
  intros H. unfold Py.slice. rewrite Nat.sub_0_r. simpl.
  by apply firstn_all2.
Qed.

Lemma slice_length {A : Type} i j (l : list A) :
  length (Py.slice i j l) = Nat.min (j - i) (length l - i).
Proof. unfold Py.slice. by rewrite length_take, length_drop. Qed.

Section Arrays.
Context {A : Type}.
Implicit Types (l : list A) (a : list (list A)).
Import Np.

Lemma shape_within rows cols a : shape rows cols a -> within rows cols a.
Proof.
  intros [Hr Hc]. split; [lia|].
  eapply Forall_impl; [exact Hc|]. simpl. intros. lia.
Qed.

Lemma slice2_full rows cols a :
  within rows cols a -> Np.slice2 0 rows 0 cols a = a.
Proof.
  intros [Hr Hc]. unfold Np.slice2. rewrite (slice_all _ _ Hr). clear Hr.
  induction Hc as [|r a' Hrow _ IH]; cbn [map]; [done|].
  f_equal; [by apply slice_all | exact IH].
Qed.

Lemma slice2_shape y0 y1 x0 x1 rows cols a :
  shape rows cols a ->
  shape (Nat.min (y1 - y0) (rows - y0)) (Nat.min (x1 - x0) (cols - x0))
    (Np.slice2 y0 y1 x0 x1 a).
Proof.
  intros [Hr Hc]. unfold Np.slice2, shape.
  rewrite length_map, slice_length, Hr. split; [done|].
  apply Forall_map. unfold Py.slice at 2.
  apply Forall_take, Forall_drop.
  eapply Forall_impl; [exact Hc|]. simpl.
  intros r <-. apply slice_length.
Qed.

Lemma chunks_shape rows cols l :
  length l = (rows * cols)%nat -> shape rows cols (Np.chunks rows cols l).
Proof.
  revert l. induction rows as [|rows IH]; intros l Hl; simpl.
  - by split.
  - destruct (IH (skipn cols l)) as [H1 H2].
    { rewrite length_drop. lia. }
    split; simpl; [by rewrite H1|].
    constructor; [|done]. rewrite length_take. lia.
Qed.

Lemma chunks_lookup rows cols l i :
  (i < rows)%nat ->
  Np.chunks rows cols l !! i = Some (firstn cols (skipn (i * cols) l)).
Proof.
  revert l i. induction rows as [|rows IH]; intros l i Hi; [lia|].
  destruct i as [|i]; simpl; [done|].
  rewrite IH by lia. by rewrite drop_drop.
Qed.

Lemma reshape_Ok (rows cols : Z) l a :
  Np.reshape rows cols l = Ok a ->
  0 <= rows /\ 0 <= cols /\ Z.of_nat (length l) = rows * cols
  /\ a = Np.chunks (Z.to_nat rows) (Z.to_nat cols) l.
Proof.
  unfold Np.reshape. intros H.
  destruct (rows <? 0) eqn:Hr; [discriminate|].
  destruct (cols <? 0) eqn:Hc; [discriminate|]. cbn [orb] in H.
  destruct (Z.of_nat (length l) =? rows * cols) eqn:Hl; [|discriminate].
  injection H as <-.
  apply Z.ltb_ge in Hr, Hc. apply Z.eqb_eq in Hl. done.
Qed.

Lemma reshape_nat (rows cols : nat) l :
  length l = (rows * cols)%nat ->
  Np.reshape (Z.of_nat rows) (Z.of_nat cols) l = Ok (Np.chunks rows cols l).
Proof.
  intros Hl. unfold Np.reshape.
  rewrite (proj2 (Z.ltb_ge (Z.of_nat rows) 0)) by lia.
  rewrite (proj2 (Z.ltb_ge (Z.of_nat cols) 0)) by lia. cbn [orb].
  rewrite (proj2 (Z.eqb_eq _ _)) by lia.
  cbn [negb]. by rewrite !Nat2Z.id.
Qed.

Lemma reshape_shape (rows cols : nat) l a :
  Np.reshape (Z.of_nat rows) (Z.of_nat cols) l = Ok a -> shape rows cols a.
Proof.
  intros (_ & _ & Hl & ->)%reshape_Ok. rewrite !Nat2Z.id.
  apply chunks_shape. lia.
Qed.

Lemma pairs_lookup l k x y :
  l !! (2 * k)%nat = Some x -> l !! (2 * k + 1)%nat = Some y ->
  Np.pairs l !! k = Some (x, y).
Proof.
  revert l. induction k as [|k IH]; intros l Hx Hy.
  - destruct l as [|a [|b l]]; simpl in *; congruence.
  - destruct l as [|a [|b l]]; [done|done|].
    replace (2 * S k)%nat with (S (S (2 * k))) in * by lia.
    simpl in *. apply IH; [done|].
    by replace (2 * k + 1)%nat with (S (2 * k)) by lia.
Qed.

Lemma pairs_length_ge l m :
  (2 * m <= length l)%nat -> (m <= length (Np.pairs l))%nat.
Proof.
  revert l. induction m as [|m IH]; intros l Hl; [lia|].
  destruct l as [|a [|b l]]; simpl in Hl; [lia|lia|].
  cbn [Np.pairs length]. apply le_n_S, IH. lia.
Qed.

Lemma pairs_lookup_inv l k x y :
  Np.pairs l !! k = Some (x, y) ->
  l !! (2 * k)%nat = Some x /\ l !! (2 * k + 1)%nat = Some y.
Proof.
  revert l. induction k as [|k IH]; intros l H.
  - destruct l as [|a [|b l]]; simpl in *; [done|done|]. by injection H as -> ->.
  - destruct l as [|a [|b l]]; [done|done|].
    replace (2 * S k)%nat with (S (S (2 * k))) by lia.
    replace (S (S (2 * k)) + 1)%nat with (S (S (2 * k + 1))) by lia.
    simpl in *. by apply IH.
Qed.

End Arrays.

Lemma item_chunks {A : Type} rows cols (l : list A) i j :
  (i < rows)%nat -> (j < cols)%nat ->
  Np.item (Np.chunks rows cols l) i j = l !! (i * cols + j)%nat.
Proof.
  intros Hi Hj. unfold Np.item. rewrite chunks_lookup by done. simpl.
  rewrite lookup_take_lt by done. apply lookup_drop.
Qed.

Lemma item_map {A B : Type} (f : A -> B) (a : list (list A)) i j :
  Np.item (map (map f) a) i j = f <$> Np.item a i j.
Proof.
  unfold Np.item. rewrite list_lookup_fmap.
  destruct (a !! i) as [r|]; simpl; [|done]. apply list_lookup_fmap.
Qed.

(** ** Interleaved complex samples (C6) *)

Section ComplexFloat32.
Context {F image : Type} (hypot arctan2 : F -> F -> F).
Implicit Types (w : world F image).

(** C6: [read_complex_float32] decodes sample [(i, j)] from the items
    [2(i W + j)] (real part) and [2(i W + j) + 1] (imaginary part) of the
    file.  With [real_imag = 0] it returns, at every sample, the amplitude
    [hypot(real, imag)] and the phase [arctan2(imag, real)] of the decoded
    sample; with another [real_imag] it returns the decoded plane as it
    is. *)
Theorem read_complex_float32_samples w File real_imag atr W L items :
  read_attributes w File = Ok atr ->
  width_of atr = Ok W ->
  length_of atr = Ok L ->
  fromfile_float32 w File = Ok items ->
  (2 * (L * W) <= length items)%nat ->
  exists data,
    Np.shape L W data
    /\ (forall i j, (i < L)%nat -> (j < W)%nat ->
        exists re im,
          items !! (2 * (i * W + j))%nat = Some re
          /\ items !! (2 * (i * W + j) + 1)%nat = Some im
          /\ Np.item data i j = Some (re, im))
    /\ (real_imag = 0 ->
        exists amplitude phase,
          read_complex_float32 hypot arctan2 w File real_imag
          = Ok (AmpPhase amplitude phase atr)
          /\ forall i j,
              Np.item amplitude i j
              = (fun c => hypot c.1 c.2) <$> Np.item data i j
              /\ Np.item phase i j
                 = (fun c => arctan2 c.2 c.1) <$> Np.item data i j)
    /\ (real_imag <> 0 ->
        read_complex_float32 hypot arctan2 w File real_imag
        = Ok (RealImag data atr)).
Proof.
  intros Hatr HW HL Hit Hlen.
  set (flat := firstn (L * W) (Np.pairs items)).
  assert (Hflat : length flat = (L * W)%nat).
  { subst flat. apply length_take_le, pairs_length_ge. lia. }
  exists (Np.chunks L W flat).
  assert (Hr :
    read_complex_float32 hypot arctan2 w File real_imag
    = if real_imag =? 0
      then Ok (AmpPhase
                 (map (map (fun c => hypot c.1 c.2)) (Np.chunks L W flat))
                 (map (map (fun c => arctan2 c.2 c.1)) (Np.chunks L W flat))
                 atr)
      else Ok (RealImag (Np.chunks L W flat) atr)).
  { unfold read_complex_float32.
    rewrite Hatr. cbn [mbind result_bind]. rewrite HW, HL, Hit.
    cbn [mbind result_bind]. fold flat.
    by rewrite (reshape_nat _ _ _ Hflat). }
  split; [by apply chunks_shape|]. split; [|split].
  - intros i j Hi Hj.
    assert (Hk : (i * W + j < L * W)%nat) by nia.
    rewrite (item_chunks _ _ _ _ _ Hi Hj).
    destruct (lookup_lt_is_Some_2 flat (i * W + j)) as [[re im] Hc]; [lia|].
    exists re, im. split_and!; [| |done].
    all: subst flat; rewrite lookup_take_lt in Hc by done.
    all: by apply pairs_lookup_inv in Hc as [? ?].
  - intros ->. rewrite Hr. simpl. do 2 eexists. split; [done|].
    intros i j. by rewrite !item_map.
  - intros Hne. rewrite Hr.
    by destruct (Z.eqb_spec real_imag 0).
Qed.

End ComplexFloat32.

(** A file of [3+4j] at its two samples: the amplitude is [hypot 3 4] and
    the phase [arctan2 4 3], here with the stand-ins of the examples. *)
Lemma read_complex_float32_example :
  exists amp pha atr,
    read_complex_float32 Examples.hyp Examples.arc Examples.int_world "a.int" 0
    = Ok (AmpPhase amp pha atr)
    /\ Np.item amp 0 1 = Some (Examples.hyp 3 4)
    /\ Np.item pha 0 1 = Some (Examples.arc 4 3).
Proof.
  destruct (attributes_at_keys Examples.int_world "a.int" "2" "1" 2 1)
    as (atr & Hatr & HW & HL); [by vm_compute..|].
  destruct (read_complex_float32_samples Examples.hyp Examples.arc
              Examples.int_world "a.int" 0 atr 2 1 [3; 4; 3; 4]
              Hatr HW HL eq_refl) as (data & _ & Hd & H0 & _); [simpl; lia|].
  destruct (H0 eq_refl) as (amp & pha & Hr & Hs).
  exists amp, pha, atr. split; [exact Hr|].
  destruct (Hd 0%nat 1%nat) as (re & im & Hre & Him & Hitem); [lia|lia|].
  injection Hre as <-. injection Him as <-.
  destruct (Hs 0%nat 1%nat) as [-> ->]. by rewrite Hitem.
Defined.

(** ** Windows of the side-by-side and int16-complex decoders (C3, C10) *)

Lemma slice_lookup {A : Type} i j (l : list A) k :
  (k < j - i)%nat -> Py.slice i j l !! k = l !! (i + k)%nat.
Proof.
  intros Hk. unfold Py.slice. rewrite lookup_take_lt by done.
  apply lookup_drop.
Qed.

Lemma item_slice2 {A : Type} y0 y1 x0 x1 (a : list (list A)) i j :
  (i < y1 - y0)%nat -> (j < x1 - x0)%nat ->
  Np.item (Np.slice2 y0 y1 x0 x1 a) i j = Np.item a (y0 + i) (x0 + j).
Proof.
  intros Hi Hj. unfold Np.item, Np.slice2.
  rewrite list_lookup_fmap, slice_lookup by done.
  destruct (a !! (y0 + i)%nat) as [r|]; simpl; [|done].
  by apply slice_lookup.
Qed.

Section Windows.
Context {F image : Type}.
Implicit Types (w : world F image).

Lemma read_float32_unfold w File b atr W L items :
  read_attributes w File = Ok atr ->
  width_of atr = Ok W ->
  length_of atr = Ok L ->
  fromfile_float32 w File = Ok items ->
  read_float32 w File b =
    let '(x0, y0, x1, y1) := match b with
                             | None => (O, O, W, L)
                             | Some b => b
                             end in
    data ← Np.reshape (Z.of_nat y1) (Z.of_nat (2 * W))
             (firstn (y1 * 2 * W) items);
    Ok (Np.slice2 y0 y1 x0 x1 data,
        Np.slice2 y0 y1 (W + x0) (W + x1) data, atr).
Proof.
  intros Hatr HW HL Hit. unfold read_float32.
  rewrite Hatr. cbn [mbind result_bind]. rewrite HW, HL.
  cbn [mbind result_bind].
  destruct (match b with None => _ | Some b0 => b0 end) as [[[x0 y0] x1] y1].
  rewrite Hit. cbn [mbind result_bind].
  by replace (2 * Z.of_nat W) with (Z.of_nat (2 * W)) by lia.
Qed.

(** C3, as amended: [read_float32] checks no window.  For every box of
    bounds that are not negative, it returns two planes when the file holds [y1] lines of [2 WIDTH] items,
    and fails in [reshape] when it holds fewer.  Slicing cuts what the box
    asks for beyond the [2 WIDTH] items of a line: the planes have
    [y1 - y0] lines, the amplitude has [min(x1, 2 WIDTH) - x0] items a
    line, and item [(i, j)] of the amplitude is item [x0 + j] of line
    [y0 + i] of the file, an item of the second channel where
    [x0 + j >= WIDTH]. *)
Theorem read_float32_any_window w File x0 y0 x1 y1 atr W L items :
  read_attributes w File = Ok atr ->
  width_of atr = Ok W ->
  length_of atr = Ok L ->
  fromfile_float32 w File = Ok items ->
  ((y1 * 2 * W <= length items)%nat ->
   exists amplitude phase,
     read_float32 w File (Some (x0, y0, x1, y1)) = Ok (amplitude, phase, atr)
     /\ Np.shape (y1 - y0) (Nat.min x1 (2 * W) - x0) amplitude
     /\ Np.shape (y1 - y0) (Nat.min (W + x1) (2 * W) - (W + x0)) phase
     /\ forall i j, (i < y1 - y0)%nat -> (j < x1 - x0)%nat ->
        Np.item amplitude i j
        = (if decide (x0 + j < 2 * W)%nat
           then items !! ((y0 + i) * (2 * W) + (x0 + j))%nat
           else None))
  /\ ((length items < y1 * 2 * W)%nat ->
      read_float32 w File (Some (x0, y0, x1, y1)) = Raise ValueError).
Proof.
  intros Hatr HW HL Hit.
  rewrite (read_float32_unfold w File _ atr W L items Hatr HW HL Hit).
  cbn zeta beta iota. split.
  - intros Hlen.
    set (flat := firstn (y1 * 2 * W) items).
    assert (Hflat : length flat = (y1 * (2 * W))%nat).
    { subst flat. rewrite length_take_le; lia. }
    rewrite (reshape_nat _ _ _ Hflat). cbn [mbind result_bind].
    pose proof (chunks_shape _ _ _ Hflat) as Hs.
    do 2 eexists. split; [done|]. split; [|split].
    + pose proof (slice2_shape y0 y1 x0 x1 _ _ _ Hs) as [H1 H2].
      split; [rewrite H1; lia|].
      eapply Forall_impl; [exact H2|]. simpl. intros r ->. lia.
    + pose proof (slice2_shape y0 y1 (W + x0) (W + x1) _ _ _ Hs) as [H1 H2].
      split; [rewrite H1; lia|].
      eapply Forall_impl; [exact H2|]. simpl. intros r ->. lia.
    + intros i j Hi Hj. rewrite item_slice2 by done.
      case_decide as Hx.
      * rewrite item_chunks by lia. subst flat.
        apply lookup_take_lt. nia.
      * unfold Np.item. rewrite chunks_lookup by lia. simpl.
        apply lookup_take_ge. lia.
  - intros Hlen. unfold Np.reshape.
    rewrite (proj2 (Z.ltb_ge (Z.of_nat y1) 0)) by lia.
    rewrite (proj2 (Z.ltb_ge (Z.of_nat (2 * W)) 0)) by lia. cbn [orb].
    rewrite (proj2 (Z.eqb_neq _ _)); [done|].
    rewrite length_take. nia.
Qed.

(** C10: with a box [(x0, y0, x1, y1)], [read_float32] and
    [read_complex_int16] depend on the first [y1 * 2 * WIDTH] items of the
    file alone: on two files with the same attributes that agree on these
    items they return the same result. *)
Theorem decoders_read_prefix w w' File x0 y0 x1 y1 atr W :
  read_attributes w File = Ok atr ->
  read_attributes w' File = Ok atr ->
  width_of atr = Ok W ->
  (forall items items',
     fromfile_float32 w File = Ok items ->
     fromfile_float32 w' File = Ok items' ->
     firstn (y1 * 2 * W) items = firstn (y1 * 2 * W) items' ->
     read_float32 w File (Some (x0, y0, x1, y1))
     = read_float32 w' File (Some (x0, y0, x1, y1)))
  /\ (forall items items',
     fromfile_int16 w File = Ok items ->
     fromfile_int16 w' File = Ok items' ->
     firstn (y1 * 2 * W) items = firstn (y1 * 2 * W) items' ->
     read_complex_int16 w File (Some (x0, y0, x1, y1))
     = read_complex_int16 w' File (Some (x0, y0, x1, y1))).
Proof.
  intros Hatr Hatr' HW. split; intros items items' Hit Hit' Hpre.
  - unfold read_float32. rewrite Hatr, Hatr'. cbn [mbind result_bind].
    rewrite HW. cbn [mbind result_bind].
    destruct (length_of atr) as [L|e]; [|done]. cbn [mbind result_bind].
    rewrite Hit, Hit'. cbn [mbind result_bind]. by rewrite Hpre.
  - unfold read_complex_int16. rewrite Hatr, Hatr'. cbn [mbind result_bind].
    rewrite HW. cbn [mbind result_bind].
    destruct (length_of atr) as [L|e]; [|done]. cbn [mbind result_bind].
    rewrite Hit, Hit'. cbn [mbind result_bind]. by rewrite Hpre.
Qed.

End Windows.

(** [read_attributes] looks at the sidecars and the container only. *)
Lemma read_attributes_ext {F image : Type} (w w' : world F image) File :
  isfile w = isfile w' ->
  open_text w = open_text w' ->
  loadtxt w = loadtxt w' ->
  ET_parse w = ET_parse w' ->
  h5py_File w = h5py_File w' ->
  read_attributes w File = read_attributes w' File.
Proof.
  destruct w, w'. simpl. intros -> -> -> -> ->. reflexivity.
Qed.

(** The box [(0, 0, 3, 1)] on lines of two samples: [x1 > WIDTH], and the
    third item of the amplitude is the first item of the second channel. *)
Lemma read_float32_any_window_example :
  exists amplitude phase atr,
    read_float32 Examples.unw_world "a.unw" (Some (0, 0, 3, 1)%nat)
    = Ok (amplitude, phase, atr)
    /\ Np.item amplitude 0 2 = Some 3.
Proof.
  destruct (attributes_at_keys Examples.unw_world "a.unw" "2" "2" 2 2)
    as (atr & Hatr & HW & HL); [by vm_compute..|].
  destruct (read_float32_any_window Examples.unw_world "a.unw" 0 0 3 1 atr 2 2
              [1; 2; 3; 4; 5; 6; 7; 8] Hatr HW HL eq_refl) as [H _].
  destruct H as (amp & pha & Hr & _ & _ & Hi); [simpl; lia|].
  exists amp, pha, atr. split; [done|]. by rewrite Hi by lia.
Defined.

(** C3, as stated, fails: with [WIDTH = 2], the boxes [(0, 0, 3, 1)] and
    [(0, 0, 3, 2)] have [x1 > WIDTH]; [read_float32] returns arrays for
    the first, and [read] for the second. *)
Lemma read_float32_window_not_checked :
  Examples.planes
    (read_float32 Examples.unw_world "a.unw" (Some (0, 0, 3, 1)%nat))
  = Ok ([[1; 2; 3]], [[3; 4]])
  /\ Examples.view ["WIDTH"]
       (read Examples.hyp Examples.arc Examples.unw_world "a.unw"
          (Some (0, 0, 3, 2)%nat) "")
     = Ok ([Float32 [[3; 4]; [7; 8]]], [Some "2"]).
Proof. split; vm_compute; reflexivity. Qed.

(** Two files that differ in their second line only, read with the box
    [(0, 0, 2, 1)] *)
Lemma decoders_read_prefix_example :
  read_float32 Examples.unw_world "a.unw" (Some (0, 0, 2, 1)%nat)
  = read_float32 Examples.unw_world' "a.unw" (Some (0, 0, 2, 1)%nat)
  /\ read_complex_int16 (Examples.slc_world [1; 2; 3; 4; 5; 6; 7; 8]) "a.slc"
       (Some (0, 0, 2, 1)%nat)
     = read_complex_int16 (Examples.slc_world [1; 2; 3; 4; 0; 0; 0; 0]) "a.slc"
         (Some (0, 0, 2, 1)%nat).
Proof.
  split.
  - destruct (attributes_at_keys Examples.unw_world "a.unw" "2" "2" 2 2)
      as (atr & Hatr & HW & _); [by vm_compute..|].
    assert (Hatr' : read_attributes Examples.unw_world' "a.unw" = Ok atr).
    { rewrite <- Hatr. by apply read_attributes_ext. }
    destruct (decoders_read_prefix Examples.unw_world Examples.unw_world'
                "a.unw" 0 0 2 1 atr 2 Hatr Hatr' HW) as [H _].
    exact (H [1; 2; 3; 4; 5; 6; 7; 8] [1; 2; 3; 4; 0; 0; 0; 0]
             eq_refl eq_refl eq_refl).
  - destruct (attributes_at_keys (Examples.slc_world [1; 2; 3; 4; 5; 6; 7; 8])
                "a.slc" "2" "2" 2 2)
      as (atr & Hatr & HW & _); [by vm_compute..|].
    assert (Hatr' : read_attributes
                      (Examples.slc_world [1; 2; 3; 4; 0; 0; 0; 0]) "a.slc"
                    = Ok atr).
    { rewrite <- Hatr. by apply read_attributes_ext. }
    destruct (decoders_read_prefix _ _ "a.slc" 0 0 2 1 atr 2 Hatr Hatr' HW)
      as [_ H].
    exact (H [1; 2; 3; 4; 5; 6; 7; 8] [1; 2; 3; 4; 0; 0; 0; 0]
             eq_refl eq_refl eq_refl).
Defined.

(** ** The entry point [read] (C1, C2, C5, C8) *)

Section Read.
Context {F image : Type} (hypot arctan2 : F -> F -> F).
Implicit Types (w : world F image) (atr : dict) (b : option box).

(** The update step changes no attribute: it returns the attributes as
    they are, or fails. *)
Lemma update_attributes_same atr b atr' :
  update_attributes atr b = Ok atr' -> atr' = atr.
Proof.
  intros H. destruct b as [bx|]; simpl in H; [|by injection H as <-].
  bind_inv H. bind_inv H.
  destruct (area bx <? _); [discriminate|]. by injection H as <-.
Qed.

Lemma update_attributes_full atr bx W L :
  width_of atr = Ok W -> length_of atr = Ok L ->
  Z.of_nat W * Z.of_nat L <= area bx ->
  update_attributes atr (Some bx) = Ok atr.
Proof.
  intros HW HL Hge. simpl. rewrite HW, HL. cbn [mbind result_bind].
  by rewrite (proj2 (Z.ltb_ge _ _) Hge).
Qed.

Lemma update_attributes_subset atr bx W L :
  width_of atr = Ok W -> length_of atr = Ok L ->
  area bx < Z.of_nat W * Z.of_nat L ->
  update_attributes atr (Some bx) = Raise (NameError "subset").
Proof.
  intros HW HL Hlt. simpl. rewrite HW, HL. cbn [mbind result_bind].
  by rewrite (proj2 (Z.ltb_lt _ _) Hlt).
Qed.

(** [read] after its attributes have been read *)
Lemma read_unfold w File b epoch atr0 p :
  read_attributes w File = Ok atr0 ->
  atr0 !! "PROCESSOR" = Some p ->
  read hypot arctan2 w File b epoch =
    atr ← update_attributes atr0 b;
    if Py.isin (ext_of File) [".h5"; ".he5"] then read_h5 w File atr b epoch
    else if Py.isin (ext_of File) [".jpeg"; ".jpg"; ".png"; ".ras"; ".bmp"] then
      atr ← read_roipac_rsc w (File ++ ".rsc");
      data ← Image_open w File;
      Ok (Ret2 (Picture match b with
                        | Some bx => Image_crop w data bx
                        | None => data
                        end) atr)
    else if String.eqb p "isce"
    then read_isce hypot arctan2 w File (ext_of File) b
    else if Py.isin p ["roipac"; "gamma"]
    then read_roipac hypot arctan2 w File (ext_of File) b
    else Ok Ret0.
Proof.
  intros Hatr Hp. unfold read. rewrite Hatr. cbn [mbind result_bind].
  unfold Py.getitem at 1. rewrite Hp. reflexivity.
Qed.

Lemma read_attributes_processor w File atr0 :
  read_attributes w File = Ok atr0 ->
  exists p, atr0 !! "PROCESSOR" = Some p
    /\ ((Py.isin (ext_of File) [".h5"; ".he5"] = true /\ p = "pysar")
        \/ (Py.isin (ext_of File) [".h5"; ".he5"] = false
            /\ p ∈ ["roipac"; "isce"; "gamma"])).
Proof.
  intros (raw & p & ft & -> & _ & Hp & Hc)%read_attributes_inv.
  exists p. rewrite lookup_insert_ne by done. split; [done|]. naive_solver.
Qed.

Lemma assoc_None (name : string) (ms : list (string * h5obj F)) :
  name ∉ map fst ms -> assoc name ms = None.
Proof.
  induction ms as [|[n o] ms IH]; simpl; [done|].
  intros H. apply not_elem_of_cons in H as [Hne H].
  destruct (String.eqb_spec name n); [done|]. by apply IH.
Qed.

(** A name that a member can have is looked up among the members of the
    group. *)
Lemma link_name_inv (name : string) :
  link_name name = true ->
  String.eqb name "" = false /\ String.eqb name "." = false
  /\ "/"%char ∉ list_ascii_of_string name.
Proof.
  unfold link_name. intros [[H1 H2]%andb_true_iff H3]%andb_true_iff.
  apply negb_true_iff in H1, H2. split; [done|]. split; [done|].
  by apply not_in_chars.
Qed.

Lemma h5_lookup_link (file : h5obj F) attrs ms (name : string) :
  link_name name = true ->
  h5_lookup file (Group attrs ms) name = assoc name ms.
Proof.
  intros (Hne & Hdot & Hslash)%link_name_inv. unfold h5_lookup, h5_steps.
  rewrite split_on_none by done. cbn [List.filter]. rewrite Hne, Hdot.
  cbn [orb negb h5_walk].
  assert (Py.startswith name "/"%char = false) as ->.
  { destruct name as [|c r]; [done|]. simpl in Hslash. simpl.
    apply not_elem_of_cons in Hslash as [Hc _].
    by destruct (Ascii.eqb_spec "/"%char c). }
  by destruct (assoc name ms).
Qed.

(** C8, as amended: the code has no error of its own for an epoch that is
    not there.  In a container whose group [k] holds several epochs
    ([interferograms], [coherence], [wrapped] or [timeseries]), an [epoch]
    that is a name a member can have (not empty, not [.], no slash) and is
    not among the members of the group makes [read] fail: no data and no
    attributes are returned.  Past the update of the attributes, the
    failure is the [KeyError] of the epoch, or, for [timeseries], where
    [get] yields [None], the [TypeError] of indexing it. *)
Theorem read_epoch_absent w File b epoch atr0 k h5file g ks :
  Py.isin (ext_of File) [".h5"; ".he5"] = true ->
  read_attributes w File = Ok atr0 ->
  atr0 !! "FILE_TYPE" = Some k ->
  k ∈ ["interferograms"; "coherence"; "wrapped"; "timeseries"] ->
  h5py_File w File = Ok h5file ->
  h5_getitem h5file h5file k = Ok g ->
  h5_keys g = Ok ks ->
  link_name epoch = true ->
  epoch ∉ ks ->
  (exists e, read hypot arctan2 w File b epoch = Raise e)
  /\ (forall atr, update_attributes atr0 b = Ok atr ->
      read hypot arctan2 w File b epoch
      = Raise (if decide (k = "timeseries") then TypeError else KeyError epoch)).
Proof.
  intros Hext Hatr Hk Hin Hh Hg Hks Hlink Hepoch.
  destruct (read_attributes_processor _ _ _ Hatr) as (p & Hp & _).
  rewrite (read_unfold _ _ b epoch _ _ Hatr Hp). rewrite Hext.
  assert (Hfail : forall atr, update_attributes atr0 b = Ok atr ->
    read_h5 w File atr b epoch
    = Raise (if decide (k = "timeseries") then TypeError else KeyError epoch)).
  { intros atr Hup. unfold read_h5. rewrite Hh. cbn [mbind result_bind].
    unfold Py.getitem.
    rewrite (update_attributes_same _ _ _ Hup).
    rewrite Hk. cbn [mbind result_bind]. unfold h5_dset.
    rewrite (proj2 (isin_true _ _) Hin), Hg. cbn [mbind result_bind].
    rewrite Hks. cbn [mbind result_bind].
    destruct g as [|gattrs ms]; [discriminate|]. injection Hks as <-.
    destruct (link_name_inv _ Hlink) as (Hne & _).
    case_decide as Hts.
    - subst k. rewrite (proj2 (isin_true _ _)) by set_solver.
      cbn [h5_get]. rewrite Hne, h5_lookup_link by done.
      by rewrite assoc_None.
    - rewrite (proj2 (isin_false _ _)) by set_solver.
      rewrite (proj2 (isin_true _ _)) by set_solver.
      cbn [h5_getitem]. rewrite Hne, h5_lookup_link by done.
      by rewrite assoc_None. }
  split.
  - destruct (update_attributes atr0 b) as [atr|e]; cbn [mbind result_bind].
    + rewrite (Hfail atr eq_refl). eauto.
    + eauto.
  - intros atr Hup. rewrite Hup. cbn [mbind result_bind]. by apply Hfail.
Qed.

(** Every decoder returns the attributes it has read itself. *)
Lemma read_float32_atr w File b atr0 amp pha atr :
  read_attributes w File = Ok atr0 ->
  read_float32 w File b = Ok (amp, pha, atr) -> atr = atr0.
Proof.
  intros Hatr H. unfold read_float32 in H. rewrite Hatr in H.
  cbn [mbind result_bind] in H. bind_inv H. bind_inv H.
  destruct (match b with None => _ | Some b0 => b0 end) as [[[x0 y0] x1] y1].
  bind_inv H. bind_inv H. by injection H as _ _ ->.
Qed.

Lemma read_complex_float32_atr w File atr0 amp pha atr :
  read_attributes w File = Ok atr0 ->
  read_complex_float32 hypot arctan2 w File 0 = Ok (AmpPhase amp pha atr) ->
  atr = atr0.
Proof.
  intros Hatr H. unfold read_complex_float32 in H. rewrite Hatr in H.
  cbn [mbind result_bind] in H. do 4 bind_inv H.
  cbn in H. by injection H as _ _ ->.
Qed.

Lemma read_real_float32_atr w File atr0 data atr :
  read_attributes w File = Ok atr0 ->
  read_real_float32 w File = Ok (data, atr) -> atr = atr0.
Proof.
  intros Hatr H. unfold read_real_float32 in H. rewrite Hatr in H.
  cbn [mbind result_bind] in H. do 4 bind_inv H. by injection H as _ ->.
Qed.

Lemma read_real_int16_atr w File atr0 data atr :
  read_attributes w File = Ok atr0 ->
  read_real_int16 w File = Ok (data, atr) -> atr = atr0.
Proof.
  intros Hatr H. unfold read_real_int16 in H. rewrite Hatr in H.
  cbn [mbind result_bind] in H. do 4 bind_inv H. by injection H as _ ->.
Qed.

Lemma read_complex_int16_atr w File b atr0 data atr :
  read_attributes w File = Ok atr0 ->
  read_complex_int16 w File b = Ok (data, atr) -> atr = atr0.
Proof.
  intros Hatr H. unfold read_complex_int16 in H. rewrite Hatr in H.
  cbn [mbind result_bind] in H. bind_inv H. bind_inv H.
  destruct (match b with None => _ | Some b0 => b0 end) as [[[x0 y0] x1] y1].
  do 5 bind_inv H. by injection H as _ ->.
Qed.

(** What the branches of [read] return *)
Lemma read_isce_inv w File b atr0 r :
  read_attributes w File = Ok atr0 ->
  read_isce hypot arctan2 w File (ext_of File) b = Ok r ->
  exists d, r = Ret2 d atr0 /\ ext_of File <> ".trans".
Proof.
  intros Hatr H. unfold read_isce in H. bind_inv H.
  destruct a as [data atr]. injection H as <-.
  destruct (Py.isin (ext_of File) [".flat"]) eqn:E1.
  { bind_inv E. destruct a as [amp pha atr'|]; [|discriminate].
    injection E as <- <-.
    rewrite (read_complex_float32_atr _ _ _ _ _ _ Hatr E0).
    eexists. split; [done|]. intros Heq. rewrite Heq in E1. by vm_compute in E1. }
  destruct (Py.isin (ext_of File) [".cor"]) eqn:E2.
  { rewrite (read_real_float32_atr _ _ _ _ _ Hatr E).
    eexists. split; [done|]. intros Heq. rewrite Heq in E2. by vm_compute in E2. }
  destruct (Py.isin (ext_of File) [".slc"]) eqn:E3; [|discriminate].
  bind_inv E. destruct a as [amp pha atr'|]; [|discriminate].
  injection E as <- <-.
  rewrite (read_complex_float32_atr _ _ _ _ _ _ Hatr E0).
  eexists. split; [done|]. intros Heq. rewrite Heq in E3. by vm_compute in E3.
Qed.

Lemma read_roipac_inv w File b atr0 r :
  read_attributes w File = Ok atr0 ->
  read_roipac hypot arctan2 w File (ext_of File) b = Ok r ->
  (exists d, r = Ret2 d atr0 /\ ext_of File <> ".trans")
  \/ (exists d1 d2, r = Ret3 d1 d2 atr0 /\ ext_of File = ".trans").
Proof.
  intros Hatr H. unfold read_roipac in H.
  destruct (Py.isin (ext_of File) [".unw"; ".cor"; ".hgt"]) eqn:E1.
  { bind_inv H. destruct a as [[amp pha] atr]. injection H as <-.
    rewrite (read_float32_atr _ _ _ _ _ _ _ Hatr E). left.
    eexists. split; [done|]. intros Heq. rewrite Heq in E1. by vm_compute in E1. }
  destruct (String.eqb_spec (ext_of File) ".dem") as [E2|_].
  { bind_inv H. destruct a as [dem atr]. injection H as <-.
    rewrite (read_real_int16_atr _ _ _ _ _ Hatr E). left.
    eexists. split; [done|]. by rewrite E2. }
  destruct (String.eqb_spec (ext_of File) ".int") as [E3|_].
  { bind_inv H. destruct a as [amp pha atr|]; [|discriminate].
    injection H as <-.
    rewrite (read_complex_float32_atr _ _ _ _ _ _ Hatr E). left.
    eexists. split; [done|]. by rewrite E3. }
  destruct (String.eqb_spec (ext_of File) ".trans") as [E4|E4].
  { bind_inv H. destruct a as [[rg az] atr]. injection H as <-.
    rewrite (read_float32_atr _ _ _ _ _ _ _ Hatr E). right. eauto. }
  destruct (String.eqb_spec (ext_of File) ".mli") as [E5|_].
  { bind_inv H. destruct a as [data atr]. injection H as <-.
    rewrite (read_real_float32_atr _ _ _ _ _ Hatr E). left. eauto. }
  destruct (String.eqb_spec (ext_of File) ".slc") as [E6|_]; [|discriminate].
  bind_inv H. destruct a as [data atr]. injection H as <-.
  rewrite (read_complex_int16_atr _ _ _ _ _ _ Hatr E). left. eauto.
Qed.

Lemma read_inv w File b epoch atr0 r :
  read_attributes w File = Ok atr0 ->
  read hypot arctan2 w File b epoch = Ok r ->
  exists atr, update_attributes atr0 b = Ok atr
    /\ ((Py.isin (ext_of File) [".h5"; ".he5"] = true
         /\ exists d, r = Ret2 d atr)
        \/ (Py.isin (ext_of File) [".h5"; ".he5"] = false
            /\ Py.isin (ext_of File) [".jpeg"; ".jpg"; ".png"; ".ras"; ".bmp"]
               = true
            /\ exists d atr', r = Ret2 d atr')
        \/ (Py.isin (ext_of File) [".h5"; ".he5"] = false
            /\ Py.isin (ext_of File) [".jpeg"; ".jpg"; ".png"; ".ras"; ".bmp"]
               = false
            /\ ((exists d, r = Ret2 d atr0 /\ ext_of File <> ".trans")
                \/ (exists d1 d2, r = Ret3 d1 d2 atr0
                                  /\ ext_of File = ".trans")))).
Proof.
  intros Hatr H.
  destruct (read_attributes_processor _ _ _ Hatr) as (p & Hp & Hcase).
  rewrite (read_unfold _ _ b epoch _ _ Hatr Hp) in H.
  bind_inv H. exists a. split; [done|].
  destruct (Py.isin (ext_of File) [".h5"; ".he5"]) eqn:Eh5.
  { left. split; [done|]. unfold read_h5 in H. do 4 bind_inv H.
    injection H as <-. eauto. }
  right.
  destruct (Py.isin (ext_of File) [".jpeg"; ".jpg"; ".png"; ".ras"; ".bmp"])
    eqn:Eimg.
  { left. do 2 (split; [done|]). do 2 bind_inv H. injection H as <-. eauto. }
  right. do 2 (split; [done|]).
  destruct Hcase as [[? _]|(_ & Hin)]; [discriminate|].
  destruct (String.eqb_spec p "isce") as [->|Hne].
  { left. by eapply read_isce_inv. }
  rewrite (proj2 (isin_true p ["roipac"; "gamma"])) in H by set_solver.
  by eapply read_roipac_inv.
Qed.

Lemma read_Ok_attributes w File b epoch r :
  read hypot arctan2 w File b epoch = Ok r ->
  exists atr0, read_attributes w File = Ok atr0.
Proof. unfold read. intros H. bind_inv H. eauto. Qed.

(** C1, as amended: with a box whose area is not less than
    [WIDTH * FILE_LENGTH], [read] does not recompute the attributes: what
    a read of a container or of a flat binary file returns with its data
    are the attributes of [read_attributes], those of the full extent,
    whatever the extent of the box and of the data returned.  (The guard
    of the recomputation is an area less than [WIDTH * FILE_LENGTH].) *)
Theorem read_window_attributes w File x0 y0 x1 y1 epoch atr0 W L r :
  read_attributes w File = Ok atr0 ->
  width_of atr0 = Ok W ->
  length_of atr0 = Ok L ->
  Z.of_nat W * Z.of_nat L <= area (x0, y0, x1, y1) ->
  Py.isin (ext_of File) [".jpeg"; ".jpg"; ".png"; ".ras"; ".bmp"] = false ->
  read hypot arctan2 w File (Some (x0, y0, x1, y1)) epoch = Ok r ->
  update_attributes atr0 (Some (x0, y0, x1, y1)) = Ok atr0
  /\ atr_of r = Some atr0.
Proof.
  intros Hatr HW HL Hge Himg H.
  split; [by eapply update_attributes_full|].
  destruct (read_inv _ _ _ _ _ _ Hatr H) as (atr & Hup & Hcase).
  apply update_attributes_same in Hup as ->.
  destruct Hcase as [(_ & d & ->)|[(_ & E & _)|(_ & _ & Hr)]];
    [done|congruence|].
  by destruct Hr as [(d & -> & _)|(d1 & d2 & -> & _)].
Qed.

(** C2, as amended: a successful [read] returns two planes exactly when
    the extension of the file is [.trans]; every other successful [read]
    returns one, also where the decoder yields an amplitude and a phase. *)
Theorem read_two_planes w File b epoch r :
  read hypot arctan2 w File b epoch = Ok r ->
  (nplanes r = 2%nat <-> ext_of File = ".trans")
  /\ (nplanes r = 1%nat \/ nplanes r = 2%nat).
Proof.
  intros H. destruct (read_Ok_attributes _ _ _ _ _ H) as (atr0 & Hatr).
  destruct (read_inv _ _ _ _ _ _ Hatr H) as (atr & _ & Hcase).
  destruct Hcase as [(E & d & ->)|[(_ & E & d & atr' & ->)|(_ & _ & Hr)]].
  - split; [|by left]. split; [done|].
    intros Heq. rewrite Heq in E. by vm_compute in E.
  - split; [|by left]. split; [done|].
    intros Heq. rewrite Heq in E. by vm_compute in E.
  - destruct Hr as [(d & -> & Hne)|(d1 & d2 & -> & Heq)].
    + split; [|by left]. by split.
    + split; [|by right]. by split.
Qed.

End Read.

Lemma attribute_at_key {F image : Type} (w : world F image) File k v :
  Examples.at_keys [k] (read_attributes w File) = Ok [Some v] ->
  exists atr, read_attributes w File = Ok atr /\ atr !! k = Some v.
Proof.
  intros Hk. destruct (read_attributes w File) as [atr|e]; [|discriminate].
  exists atr. split; [done|]. by injection Hk.
Qed.

(** No epoch [20100102] in a time series of the one epoch [20100101], and
    no pair [d1-d3] among the interferograms *)
Lemma read_epoch_absent_example :
  read Examples.hyp Examples.arc Examples.timeseries_world "ts.h5" None "20100102"
  = Raise TypeError
  /\ read Examples.hyp Examples.arc Examples.interferograms_world "ifg.h5" None
       "d1-d3"
     = Raise (KeyError "d1-d3").
Proof.
  split.
  - destruct (attribute_at_key Examples.timeseries_world "ts.h5" "FILE_TYPE"
                "timeseries") as (atr & Hatr & Hk); [by vm_compute|].
    eapply (read_epoch_absent Examples.hyp Examples.arc
              Examples.timeseries_world "ts.h5" None "20100102" atr
              "timeseries" _ _ ["20100101"]);
      [by vm_compute|done|done|set_solver|by vm_compute|by vm_compute
      |by vm_compute|by vm_compute|set_solver|done].
  - destruct (attribute_at_key Examples.interferograms_world "ifg.h5"
                "FILE_TYPE" "interferograms") as (atr & Hatr & Hk);
      [by vm_compute|].
    eapply (read_epoch_absent Examples.hyp Examples.arc
              Examples.interferograms_world "ifg.h5" None "d1-d3" atr
              "interferograms" _ _ ["d1-d2"]);
      [by vm_compute|done|done|set_solver|by vm_compute|by vm_compute
      |by vm_compute|by vm_compute|set_solver|done].
Defined.

(** A velocity file of two lines of two samples, read with the box
    [(0, 0, 4, 1)], of area 4: one line is returned, with the attributes
    of the file, which say two. *)
Lemma read_window_attributes_example :
  exists r atr,
    read Examples.hyp Examples.arc Examples.velocity_world "v.h5"
      (Some (0, 0, 4, 1)%nat) "" = Ok r
    /\ atr_of r = Some atr
    /\ atr !! "WIDTH" = Some "2" /\ atr !! "FILE_LENGTH" = Some "2".
Proof.
  destruct (attributes_at_keys Examples.velocity_world "v.h5" "2" "2" 2 2)
    as (atr0 & Hatr & HW & HL); [by vm_compute..|].
  assert (Hk : Examples.at_keys ["WIDTH"; "FILE_LENGTH"]
                 (read_attributes Examples.velocity_world "v.h5")
               = Ok [Some "2"; Some "2"]) by (vm_compute; reflexivity).
  rewrite Hatr in Hk. injection Hk as Hwidth Hlength.
  assert (Hv : Examples.view []
                 (read Examples.hyp Examples.arc Examples.velocity_world "v.h5"
                    (Some (0, 0, 4, 1)%nat) "")
               = Ok ([Float32 [[1; 2]]], [])) by (vm_compute; reflexivity).
  destruct (read Examples.hyp Examples.arc Examples.velocity_world "v.h5"
              (Some (0, 0, 4, 1)%nat) "") as [r|e] eqn:E; [|discriminate].
  destruct (read_window_attributes Examples.hyp Examples.arc
              Examples.velocity_world "v.h5" 0 0 4 1 "" atr0 2 2 r
              Hatr HW HL) as [_ Hr]; [by vm_compute|by vm_compute|done|].
  by exists r, atr0.
Defined.

(** C1, as stated, fails on a velocity file of two lines of two samples.
    The area of the box [(0, 0, 4, 1)] is that of the file: the claim has
    the attributes recomputed, and those returned are the attributes of
    the file, a [FILE_LENGTH] of two lines for the one line returned.
    The area of the box [(0, 0, 1, 1)] is less: the claim has the
    attributes of the full extent returned, and nothing is returned, the
    call ending in the [NameError] of the name [subset]. *)
Lemma read_window_attributes_inverted :
  Examples.at_keys ["WIDTH"; "FILE_LENGTH"]
    (read_attributes Examples.velocity_world "v.h5")
  = Ok [Some "2"; Some "2"]
  /\ Examples.view ["WIDTH"; "FILE_LENGTH"]
       (read Examples.hyp Examples.arc Examples.velocity_world "v.h5"
          (Some (0, 0, 4, 1)%nat) "")
     = Ok ([Float32 [[1; 2]]], [Some "2"; Some "2"])
  /\ read Examples.hyp Examples.arc Examples.velocity_world "v.h5"
       (Some (0, 0, 1, 1)%nat) ""
     = Raise (NameError "subset").
Proof. split; [|split]; vm_compute; reflexivity. Qed.

(** C8, as stated, fails on a time series whose one member is [20100101]:
    the epochs [./20100101] and [/timeseries/20100101] are not in the list
    of members, and [read] returns the data of the member, which they
    name as paths; likewise [./d1-d2] among the interferograms. *)
Lemma read_epoch_path :
  (h5file ← h5py_File Examples.timeseries_world "ts.h5";
   g ← h5_getitem h5file h5file "timeseries";
   h5_keys g) = Ok ["20100101"]
  /\ Py.isin "./20100101" ["20100101"] = false
  /\ Py.isin "/timeseries/20100101" ["20100101"] = false
  /\ Examples.view []
       (read Examples.hyp Examples.arc Examples.timeseries_world "ts.h5" None
          "./20100101")
     = Ok ([Float32 [[1; 2]; [3; 4]]], [])
  /\ Examples.view []
       (read Examples.hyp Examples.arc Examples.timeseries_world "ts.h5" None
          "/timeseries/20100101")
     = Ok ([Float32 [[1; 2]; [3; 4]]], [])
  /\ Examples.view []
       (read Examples.hyp Examples.arc Examples.interferograms_world "ifg.h5"
          None "./d1-d2")
     = Ok ([Float32 [[1; 2]; [3; 4]]], []).
Proof. split_and!; vm_compute; reflexivity. Qed.

(** A [.trans] file is returned as two planes. *)
Lemma read_two_planes_example :
  exists r,
    read Examples.hyp Examples.arc Examples.trans_world "a.trans" None "" = Ok r
    /\ nplanes r = 2%nat.
Proof.
  assert (Hv : Examples.view []
                 (read Examples.hyp Examples.arc Examples.trans_world "a.trans"
                    None "")
               = Ok ([Float32 [[1; 2]; [5; 6]]; Float32 [[3; 4]; [7; 8]]], []))
    by (vm_compute; reflexivity).
  destruct (read Examples.hyp Examples.arc Examples.trans_world "a.trans"
              None "") as [r|e] eqn:E; [|discriminate].
  exists r. split; [done|].
  apply (read_two_planes _ _ _ _ _ _ _ E). by vm_compute.
Defined.

(** C2, as stated, fails: the decoder of an [.unw] file yields an
    amplitude and a phase, and [read] returns one plane, the phase. *)
Lemma read_unw_one_plane :
  Examples.planes (read_float32 Examples.unw_world "a.unw" None)
  = Ok ([[1; 2]; [5; 6]], [[3; 4]; [7; 8]])
  /\ Examples.view []
       (read Examples.hyp Examples.arc Examples.unw_world "a.unw" None "")
     = Ok ([Float32 [[3; 4]; [7; 8]]], []).
Proof. split; vm_compute; reflexivity. Qed.

(** ** The box of the full extent (C5) *)

Section FullExtent.
Context {F image : Type} (hypot arctan2 : F -> F -> F).
Implicit Types (w : world F image) (atr : dict).

Lemma crop_full {A : Type} W L (a : list (list A)) :
  Np.within L W a -> crop (Some (O, O, W, L)) a = a.
Proof. intros H. unfold crop. by apply slice2_full. Qed.

Lemma map_shape {A B : Type} (f : A -> B) rows cols (a : list (list A)) :
  Np.shape rows cols a -> Np.shape rows cols (map (map f) a).
Proof.
  intros [Hr Hc]. split; [by rewrite length_map|].
  apply Forall_map. eapply Forall_impl; [exact Hc|]. simpl.
  intros r <-. apply length_map.
Qed.

Lemma read_complex_float32_shape w File atr0 W L amp pha atr :
  read_attributes w File = Ok atr0 ->
  width_of atr0 = Ok W -> length_of atr0 = Ok L ->
  read_complex_float32 hypot arctan2 w File 0 = Ok (AmpPhase amp pha atr) ->
  Np.shape L W amp /\ Np.shape L W pha.
Proof.
  intros Hatr HW HL H. unfold read_complex_float32 in H.
  rewrite Hatr in H. cbn [mbind result_bind] in H. rewrite HW, HL in H.
  cbn [mbind result_bind] in H. do 2 bind_inv H.
  cbn in H. injection H as <- <- _.
  apply reshape_shape in E0. split; by apply map_shape.
Qed.

Lemma read_real_float32_shape w File atr0 W L data atr :
  read_attributes w File = Ok atr0 ->
  width_of atr0 = Ok W -> length_of atr0 = Ok L ->
  read_real_float32 w File = Ok (data, atr) ->
  Np.shape L W data.
Proof.
  intros Hatr HW HL H. unfold read_real_float32 in H.
  rewrite Hatr in H. cbn [mbind result_bind] in H. rewrite HW, HL in H.
  cbn [mbind result_bind] in H. do 2 bind_inv H. injection H as <- _.
  by apply reshape_shape in E0.
Qed.

Lemma read_real_int16_shape w File atr0 W L data atr :
  read_attributes w File = Ok atr0 ->
  width_of atr0 = Ok W -> length_of atr0 = Ok L ->
  read_real_int16 w File = Ok (data, atr) ->
  Np.shape L W data.
Proof.
  intros Hatr HW HL H. unfold read_real_int16 in H.
  rewrite Hatr in H. cbn [mbind result_bind] in H. rewrite HW, HL in H.
  cbn [mbind result_bind] in H. do 2 bind_inv H. injection H as <- _.
  by apply reshape_shape in E0.
Qed.

Lemma read_float32_full w File atr0 W L :
  read_attributes w File = Ok atr0 ->
  width_of atr0 = Ok W -> length_of atr0 = Ok L ->
  read_float32 w File (Some (O, O, W, L)) = read_float32 w File None.
Proof.
  intros Hatr HW HL. unfold read_float32.
  rewrite Hatr. cbn [mbind result_bind]. rewrite HW, HL. reflexivity.
Qed.

Lemma read_complex_int16_full w File atr0 W L :
  read_attributes w File = Ok atr0 ->
  width_of atr0 = Ok W -> length_of atr0 = Ok L ->
  read_complex_int16 w File (Some (O, O, W, L)) = read_complex_int16 w File None.
Proof.
  intros Hatr HW HL. unfold read_complex_int16.
  rewrite Hatr. cbn [mbind result_bind]. rewrite HW, HL. reflexivity.
Qed.

Lemma read_isce_full w File atr0 W L :
  read_attributes w File = Ok atr0 ->
  width_of atr0 = Ok W -> length_of atr0 = Ok L ->
  read_isce hypot arctan2 w File (ext_of File) (Some (O, O, W, L))
  = read_isce hypot arctan2 w File (ext_of File) None.
Proof.
  intros Hatr HW HL. unfold read_isce.
  destruct (Py.isin (ext_of File) [".flat"]).
  { destruct (read_complex_float32 hypot arctan2 w File 0)
      as [[amp pha atr|]|] eqn:E; [|done|done].
    cbn [mbind result_bind]. destruct (read_complex_float32_shape _ _ _ _ _ _ _ _ Hatr HW HL E).
    by rewrite crop_full by by apply shape_within. }
  destruct (Py.isin (ext_of File) [".cor"]).
  { destruct (read_real_float32 w File) as [[data atr]|] eqn:E; [|done].
    cbn [mbind result_bind]. pose proof (read_real_float32_shape _ _ _ _ _ _ _ Hatr HW HL E).
    by rewrite crop_full by by apply shape_within. }
  destruct (Py.isin (ext_of File) [".slc"]); [|done].
  destruct (read_complex_float32 hypot arctan2 w File 0)
    as [[amp pha atr|]|] eqn:E; [|done|done].
  cbn [mbind result_bind h5_values]. destruct (read_complex_float32_shape _ _ _ _ _ _ _ _ Hatr HW HL E).
  by rewrite crop_full by by apply shape_within.
Qed.

Lemma read_roipac_full w File atr0 W L :
  read_attributes w File = Ok atr0 ->
  width_of atr0 = Ok W -> length_of atr0 = Ok L ->
  read_roipac hypot arctan2 w File (ext_of File) (Some (O, O, W, L))
  = read_roipac hypot arctan2 w File (ext_of File) None.
Proof.
  intros Hatr HW HL. unfold read_roipac.
  rewrite (read_float32_full _ _ _ _ _ Hatr HW HL).
  rewrite (read_complex_int16_full _ _ _ _ _ Hatr HW HL).
  destruct (Py.isin (ext_of File) [".unw"; ".cor"; ".hgt"]); [done|].
  destruct (String.eqb (ext_of File) ".dem").
  { destruct (read_real_int16 w File) as [[dem atr]|] eqn:E; [|done].
    cbn [mbind result_bind]. pose proof (read_real_int16_shape _ _ _ _ _ _ _ Hatr HW HL E).
    by rewrite crop_full by by apply shape_within. }
  destruct (String.eqb (ext_of File) ".int").
  { destruct (read_complex_float32 hypot arctan2 w File 0)
      as [[amp pha atr|]|] eqn:E; [|done|done].
    cbn [mbind result_bind]. destruct (read_complex_float32_shape _ _ _ _ _ _ _ _ Hatr HW HL E).
    by rewrite crop_full by by apply shape_within. }
  destruct (String.eqb (ext_of File) ".trans"); [done|].
  destruct (String.eqb (ext_of File) ".mli"); [|done].
  destruct (read_real_float32 w File) as [[data atr]|] eqn:E; [|done].
  cbn [mbind result_bind h5_values]. pose proof (read_real_float32_shape _ _ _ _ _ _ _ Hatr HW HL E).
  by rewrite crop_full by by apply shape_within.
Qed.

Lemma read_h5_full w File epoch atr W L :
  declared_shape w File epoch W L ->
  read_h5 w File atr (Some (O, O, W, L)) epoch = read_h5 w File atr None epoch.
Proof.
  intros Hshape. unfold read_h5.
  destruct (h5py_File w File) as [h5file|] eqn:Hh; [|done].
  cbn [mbind result_bind].
  destruct (Py.getitem atr "FILE_TYPE") as [k|]; [|done].
  cbn [mbind result_bind].
  destruct (h5_dset h5file k epoch) as [[[attrs v|]|]|] eqn:Hd; [|done..].
  cbn [mbind result_bind h5_values]. by rewrite crop_full by by eapply Hshape.
Qed.


End FullExtent.

Lemma velocity_declared_shape :
  declared_shape Examples.velocity_world "v.h5" "" 2 2.
Proof.
  intros h5file k attrs v Hh Hd. injection Hh as <-.
  assert (Hv : v = [[1; 2]; [3; 4]]).
  { unfold h5_dset in Hd.
    destruct (Py.isin k ["interferograms"; "coherence"; "wrapped"; "timeseries"])
      eqn:E4.
    { apply isin_true in E4. exfalso. clear -E4 Hd.
      repeat (apply elem_of_cons in E4 as [->|E4]; [by vm_compute in Hd|]).
      by apply elem_of_nil in E4. }
    destruct (Py.isin k ["dem"; "mask"; "rmse"; "temporal_coherence"; "velocity"])
      eqn:E5; [|discriminate].
    apply isin_true in E5. clear -E5 Hd.
    repeat (apply elem_of_cons in E5 as [->|E5];
            [vm_compute in Hd; congruence|]).
    by apply elem_of_nil in E5. }
  subst v. split; [simpl; lia|]. repeat constructor.
Qed.



(** * Further properties of the module *)

(** ** Sidecar probing and the keys [read_attributes] sets *)

Section Probing.
Context {F image : Type}.
Implicit Types (w : world F image) (atr raw : dict).

Lemma tag_other p ext raw k :
  k <> "PROCESSOR" -> k <> "FILE_TYPE" -> tag p ext raw !! k = raw !! k.
Proof. intros Hp Hf. unfold tag. by rewrite !lookup_insert_ne. Qed.

(** A successful [read_attributes] on a file that is no container has
    parsed the first sidecar that exists. *)
Lemma read_attributes_flat_inv w File atr :
  Py.isin (ext_of File) [".h5"; ".he5"] = false ->
  read_attributes w File = Ok atr ->
  isfile w File = true
  /\ exists p raw,
      atr = <["UNIT" := unit_of (ext_of File)]> (tag p (ext_of File) raw)
      /\ ((p = "roipac" /\ isfile w (File ++ ".rsc") = true
           /\ read_roipac_rsc w (File ++ ".rsc") = Ok raw)
          \/ (p = "isce" /\ isfile w (File ++ ".rsc") = false
              /\ isfile w (File ++ ".xml") = true
              /\ read_isce_xml w (File ++ ".xml") = Ok raw)
          \/ (p = "gamma" /\ isfile w (File ++ ".rsc") = false
              /\ isfile w (File ++ ".xml") = false
              /\ isfile w (File ++ ".par") = true
              /\ read_gamma_par w (File ++ ".par") = Ok raw)
          \/ (p = "gamma" /\ isfile w (File ++ ".rsc") = false
              /\ isfile w (File ++ ".xml") = false
              /\ isfile w (File ++ ".par") = false
              /\ isfile w ((Py.splitext File).1 ++ ".par") = true
              /\ read_gamma_par w ((Py.splitext File).1 ++ ".par") = Ok raw)).
Proof.
  intros Hext H. unfold read_attributes in H. rewrite Hext in H.
  destruct (isfile w File); [|discriminate]. split; [done|].
  cbn [negb] in H. bind_inv H. bind_inv H. injection H as <-.
  assert (Hft : forall p raw, a = tag p (ext_of File) raw -> a0 = ext_of File).
  { intros p raw ->. apply getitem_Ok in E0.
    destruct (tag_lookup p (ext_of File) raw) as [_ H2]. congruence. }
  destruct (isfile w (File ++ ".rsc")).
  { bind_inv E. injection E as <-. exists "roipac", a1.
    rewrite (Hft _ _ eq_refl). naive_solver. }
  destruct (isfile w (File ++ ".xml")).
  { bind_inv E. injection E as <-. exists "isce", a1.
    rewrite (Hft _ _ eq_refl). naive_solver. }
  destruct (isfile w (File ++ ".par")).
  { bind_inv E. injection E as <-. exists "gamma", a1.
    rewrite (Hft _ _ eq_refl). naive_solver. }
  destruct (isfile w ((Py.splitext File).1 ++ ".par")); [|discriminate].
  bind_inv E. injection E as <-. exists "gamma", a1.
  rewrite (Hft _ _ eq_refl). naive_solver.
Qed.

(** X1: a successful [read_attributes] sets [PROCESSOR], [FILE_TYPE] and
    [UNIT].  [PROCESSOR] is [pysar] exactly for the extensions [.h5] and
    [.he5]; otherwise it is [roipac], [isce] or [gamma], and [FILE_TYPE]
    is the extension of the file in lower case. *)
Theorem read_attributes_required_keys w File atr :
  read_attributes w File = Ok atr ->
  exists p ft,
    atr !! "PROCESSOR" = Some p
    /\ atr !! "FILE_TYPE" = Some ft
    /\ atr !! "UNIT" = Some (unit_of ft)
    /\ p ∈ ["pysar"; "roipac"; "isce"; "gamma"]
    /\ (p = "pysar" <-> Py.isin (ext_of File) [".h5"; ".he5"] = true)
    /\ (p <> "pysar" -> ft = ext_of File).
Proof.
  intros (raw & p & ft & -> & Hft & Hp & Hc)%read_attributes_inv.
  exists p, ft. rewrite !lookup_insert_ne by done.
  split; [done|]. split; [done|]. split; [apply lookup_insert_eq|].
  destruct Hc as [[Hext ->]|(Hext & Hin & ->)].
  - split; [set_solver|]. split; [done|]. done.
  - split; [set_solver|]. split; [|done]. split.
    + intros ->. exfalso. clear -Hin.
      repeat (apply elem_of_cons in Hin as [Hin|Hin]; [discriminate|]).
      by apply elem_of_nil in Hin.
    + intros Ht. congruence.
Qed.

(** X2: the order of the probes.  For a file that is no container, a
    successful [read_attributes] has found the file and has parsed the
    first of [File.rsc], [File.xml], [File.par] and [stem.par] that exists:
    the attributes are the mapping of that sidecar, in which [PROCESSOR],
    [FILE_TYPE] and then [UNIT] are set, in this order.  A missing file, or
    a file without any of the sidecars, is a [SystemExit]. *)
Theorem read_attributes_probe_order w File :
  Py.isin (ext_of File) [".h5"; ".he5"] = false ->
  (forall atr, read_attributes w File = Ok atr ->
     isfile w File = true
     /\ exists p raw,
         atr = <["UNIT" := unit_of (ext_of File)]>
                 (<["FILE_TYPE" := ext_of File]> (<["PROCESSOR" := p]> raw))
         /\ ((p = "roipac" /\ isfile w (File ++ ".rsc") = true
              /\ read_roipac_rsc w (File ++ ".rsc") = Ok raw)
             \/ (p = "isce" /\ isfile w (File ++ ".rsc") = false
                 /\ isfile w (File ++ ".xml") = true
                 /\ read_isce_xml w (File ++ ".xml") = Ok raw)
             \/ (p = "gamma" /\ isfile w (File ++ ".rsc") = false
                 /\ isfile w (File ++ ".xml") = false
                 /\ isfile w (File ++ ".par") = true
                 /\ read_gamma_par w (File ++ ".par") = Ok raw)
             \/ (p = "gamma" /\ isfile w (File ++ ".rsc") = false
                 /\ isfile w (File ++ ".xml") = false
                 /\ isfile w (File ++ ".par") = false
                 /\ isfile w ((Py.splitext File).1 ++ ".par") = true
                 /\ read_gamma_par w ((Py.splitext File).1 ++ ".par") = Ok raw)))
  /\ (isfile w File = false -> read_attributes w File = Raise SystemExit)
  /\ (isfile w (File ++ ".rsc") = false ->
      isfile w (File ++ ".xml") = false ->
      isfile w (File ++ ".par") = false ->
      isfile w ((Py.splitext File).1 ++ ".par") = false ->
      read_attributes w File = Raise SystemExit).
Proof.
  intros Hext. split; [|split].
  - intros atr H. by apply read_attributes_flat_inv.
  - intros Hf. unfold read_attributes. by rewrite Hf.
  - intros H1 H2 H3 H4. unfold read_attributes.
    rewrite Hext, H1, H2, H3, H4. by destruct (isfile w File).
Qed.

Lemma read_gamma_par_size w File raw :
  read_gamma_par w File = Ok raw ->
  exists width len,
    raw !! "WIDTH" = Some width /\ raw !! "range_samples:" = Some width
    /\ raw !! "FILE_LENGTH" = Some len /\ raw !! "azimuth_lines:" = Some len.
Proof.
  unfold read_gamma_par. intros H. bind_inv H.
  destruct (Py.lines a) as [|? [|? rest]]; [discriminate..|].
  cbn zeta in H. bind_inv H. bind_inv H. injection H as <-.
  apply getitem_Ok in E0, E1. exists a0, a1.
  rewrite lookup_insert_ne in E1 by done.
  split_and!.
  - rewrite lookup_insert_ne by done. apply lookup_insert_eq.
  - by rewrite !lookup_insert_ne by done.
  - apply lookup_insert_eq.
  - by rewrite !lookup_insert_ne by done.
Qed.

Lemma read_isce_xml_size w File raw :
  read_isce_xml w File = Ok raw ->
  exists width len,
    raw !! "WIDTH" = Some width /\ raw !! "width" = Some width
    /\ raw !! "FILE_LENGTH" = Some len /\ raw !! "length" = Some len.
Proof.
  unfold read_isce_xml. intros H. do 4 bind_inv H. injection H as <-.
  apply getitem_Ok in E1, E2. exists a1, a2.
  rewrite lookup_insert_ne in E2 by done.
  split_and!.
  - rewrite lookup_insert_ne by done. apply lookup_insert_eq.
  - by rewrite !lookup_insert_ne by done.
  - apply lookup_insert_eq.
  - by rewrite !lookup_insert_ne by done.
Qed.

(** X3: for a file whose attributes come from a GAMMA parameter file or an
    ISCE xml file, [WIDTH] and [FILE_LENGTH] are there after
    [read_attributes], and are the values of [range_samples:] and
    [azimuth_lines:], or of [width] and [length]. *)
Theorem read_attributes_size_keys w File atr p :
  read_attributes w File = Ok atr ->
  atr !! "PROCESSOR" = Some p ->
  (p = "gamma" ->
   exists width len,
     atr !! "WIDTH" = Some width /\ atr !! "range_samples:" = Some width
     /\ atr !! "FILE_LENGTH" = Some len /\ atr !! "azimuth_lines:" = Some len)
  /\ (p = "isce" ->
      exists width len,
        atr !! "WIDTH" = Some width /\ atr !! "width" = Some width
        /\ atr !! "FILE_LENGTH" = Some len /\ atr !! "length" = Some len).
Proof.
  intros H Hp.
  destruct (read_attributes_processor _ _ _ H) as (p' & Hp' & Hcase).
  rewrite Hp in Hp'. injection Hp' as <-.
  assert (Hflat : p <> "pysar" ->
            Py.isin (ext_of File) [".h5"; ".he5"] = false).
  { intros Hne. by destruct Hcase as [[_ ->]|[-> _]]. }
  assert (Hlook : forall q raw k, k <> "UNIT" -> k <> "PROCESSOR" ->
            k <> "FILE_TYPE" ->
            (<["UNIT" := unit_of (ext_of File)]> (tag q (ext_of File) raw)) !! k
            = raw !! k).
  { intros q raw k H1 H2 H3. rewrite lookup_insert_ne by done.
    by apply tag_other. }
  split; intros ->.
  - destruct (read_attributes_flat_inv _ _ _ (Hflat ltac:(done)) H)
      as (_ & q & raw & -> & Hc).
    assert (q = "gamma") as ->.
    { rewrite lookup_insert_ne in Hp by done.
      destruct (tag_lookup q (ext_of File) raw) as [Hq _]. congruence. }
    rewrite !Hlook by done.
    destruct Hc as [(? & _)|[(? & _)|[(_ & _ & _ & _ & Hr)|(_ & _ & _ & _ & _ & Hr)]]];
      [discriminate..| |]; by eapply read_gamma_par_size.
  - destruct (read_attributes_flat_inv _ _ _ (Hflat ltac:(done)) H)
      as (_ & q & raw & -> & Hc).
    assert (q = "isce") as ->.
    { rewrite lookup_insert_ne in Hp by done.
      destruct (tag_lookup q (ext_of File) raw) as [Hq _]. congruence. }
    rewrite !Hlook by done.
    destruct Hc as [(? & _)|[(_ & _ & _ & Hr)|[(? & _)|(? & _)]]];
      [discriminate| |discriminate..]. by eapply read_isce_xml_size.
Qed.

End Probing.

(** A GAMMA single-look file with its parameter file *)
Lemma read_attributes_required_keys_example :
  exists atr p ft,
    read_attributes (Examples.gamma_world Examples.par_text) "a.slc" = Ok atr
    /\ atr !! "PROCESSOR" = Some p /\ atr !! "FILE_TYPE" = Some ft
    /\ ft = ext_of "a.slc".
Proof.
  destruct (attribute_at_key (Examples.gamma_world Examples.par_text) "a.slc"
              "PROCESSOR" "gamma") as (atr & Hatr & Hk); [by vm_compute|].
  destruct (read_attributes_required_keys _ _ _ Hatr)
    as (p & ft & Hp & Hft & _ & _ & _ & Hne).
  exists atr, p, ft. split_and!; [done..|].
  apply Hne. rewrite Hk in Hp. by injection Hp as <-.
Defined.

Lemma read_attributes_probe_order_example :
  exists atr raw,
    read_attributes (Examples.gamma_world Examples.par_text) "a.slc" = Ok atr
    /\ read_gamma_par (Examples.gamma_world Examples.par_text) "a.slc.par"
       = Ok raw
    /\ atr = <["UNIT" := "1"]>
               (<["FILE_TYPE" := ".slc"]> (<["PROCESSOR" := "gamma"]> raw)).
Proof.
  destruct (attribute_at_key (Examples.gamma_world Examples.par_text) "a.slc"
              "PROCESSOR" "gamma") as (atr & Hatr & Hk); [by vm_compute|].
  destruct (read_attributes_probe_order
              (Examples.gamma_world Examples.par_text) "a.slc")
    as (H & _); [by vm_compute|].
  destruct (H atr Hatr) as (_ & p & raw & Heq & Hc).
  exists atr, raw. split; [done|].
  destruct Hc as [(_ & Hf & _)|[(_ & _ & Hf & _)
                 |[(-> & _ & _ & _ & Hr)|(_ & _ & _ & Hf & _)]]];
    [by vm_compute in Hf..| |by vm_compute in Hf].
  split; [done|]. exact Heq.
Defined.

Lemma read_attributes_size_keys_example :
  exists atr width,
    read_attributes (Examples.gamma_world Examples.par_text) "a.slc" = Ok atr
    /\ atr !! "WIDTH" = Some width /\ atr !! "range_samples:" = Some width.
Proof.
  destruct (attribute_at_key (Examples.gamma_world Examples.par_text) "a.slc"
              "PROCESSOR" "gamma") as (atr & Hatr & Hk); [by vm_compute|].
  destruct (read_attributes_size_keys _ _ _ _ Hatr Hk) as [H _].
  destruct (H eq_refl) as (width & len & Hw & Hr & _).
  by exists atr, width.
Defined.

(** ** The order of strings *)

Lemma ascii_compare_refl (a : ascii) : Ascii.compare a a = Eq.
Proof. unfold Ascii.compare. apply N.compare_refl. Qed.

Lemma ascii_compare_eq (a b : ascii) : Ascii.compare a b = Eq -> a = b.
Proof. apply Ascii.compare_eq_iff. Qed.

Lemma ascii_compare_trans (a b c : ascii) r :
  Ascii.compare a b = r -> Ascii.compare b c = r -> r <> Eq ->
  Ascii.compare a c = r.
Proof.
  unfold Ascii.compare. intros Hab Hbc Hr.
  destruct r; [done| |].
  - apply N.compare_lt_iff in Hab. apply N.compare_lt_iff in Hbc.
    apply N.compare_lt_iff. by eapply N.lt_trans.
  - apply N.compare_gt_iff in Hab. apply N.compare_gt_iff in Hbc.
    apply N.compare_gt_iff. by eapply N.lt_trans.
Qed.

Lemma string_compare_refl (s : string) : String.compare s s = Eq.
Proof.
  induction s as [|c s IH]; simpl; [done|]. by rewrite ascii_compare_refl.
Qed.

Lemma string_compare_not_gt_trans (a b c : string) :
  String.compare a b <> Gt -> String.compare b c <> Gt ->
  String.compare a c <> Gt.
Proof.
  revert b c. induction a as [|x a IH]; intros [|y b] [|z c]; simpl; try done.
  destruct (Ascii.compare x y) eqn:Hxy, (Ascii.compare y z) eqn:Hyz;
    try done.
  - apply ascii_compare_eq in Hxy, Hyz. subst.
    rewrite ascii_compare_refl. apply IH.
  - apply ascii_compare_eq in Hxy. subst. by rewrite Hyz.
  - apply ascii_compare_eq in Hyz. subst. by rewrite Hxy.
  - by rewrite (ascii_compare_trans x y z Lt Hxy Hyz).
Qed.

Lemma string_leb_refl (s : string) : String.leb s s = true.
Proof. unfold String.leb. by rewrite string_compare_refl. Qed.

Lemma string_leb_trans (a b c : string) :
  String.leb a b = true -> String.leb b c = true -> String.leb a c = true.
Proof.
  unfold String.leb. intros Hab Hbc.
  pose proof (string_compare_not_gt_trans a b c) as H.
  destruct (String.compare a b), (String.compare b c),
    (String.compare a c); try done; exfalso; by apply H.
Qed.

Lemma str_min_le (a b : string) :
  String.leb (Py.str_min a b) a = true /\ String.leb (Py.str_min a b) b = true
  /\ (Py.str_min a b = a \/ Py.str_min a b = b).
Proof.
  unfold Py.str_min. destruct (String.leb a b) eqn:E.
  - split; [apply string_leb_refl|]. split; [done|by left].
  - destruct (String.leb_total a b) as [H|H]; [congruence|].
    split; [done|]. split; [apply string_leb_refl|by right].
Qed.

Lemma fold_str_min (r : list string) : forall a,
  fold_left Py.str_min r a ∈ a :: r
  /\ forall x, x ∈ a :: r -> String.leb (fold_left Py.str_min r a) x = true.
Proof.
  induction r as [|b r IH]; intros a; simpl.
  - split; [set_solver|]. intros x Hx. apply list_elem_of_singleton in Hx as ->.
    apply string_leb_refl.
  - destruct (IH (Py.str_min a b)) as [Hin Hle].
    destruct (str_min_le a b) as (Ha & Hb & Hor).
    split.
    + apply elem_of_cons in Hin as [->|Hin]; [|set_solver].
      destruct Hor as [->| ->]; set_solver.
    + intros x Hx.
      assert (Hm : String.leb (fold_left Py.str_min r (Py.str_min a b))
                     (Py.str_min a b) = true) by (apply Hle; set_solver).
      apply elem_of_cons in Hx as [->|Hx];
        [by eapply string_leb_trans|].
      apply elem_of_cons in Hx as [->|Hx];
        [by eapply string_leb_trans|].
      apply Hle. set_solver.
Qed.

(** [sorted(l)[0]] is a least member of [l]. *)
Lemma sorted_first_least (l : list string) d :
  Py.sorted_first l = Ok d ->
  d ∈ l /\ forall x, x ∈ l -> String.leb d x = true.
Proof.
  destruct l as [|a r]; [discriminate|]. simpl. intros [= <-].
  apply fold_str_min.
Qed.

(** ** Containers: the group chosen and its attributes *)

Section Container.
Context {F image : Type}.
Implicit Types (w : world F image) (atr raw : dict).

Lemma read_attributes_container w File atr :
  Py.isin (ext_of File) [".h5"; ".he5"] = true ->
  read_attributes w File = Ok atr ->
  isfile w File = true
  /\ exists raw ft, read_attributes_h5 w File = Ok raw
       /\ raw !! "FILE_TYPE" = Some ft
       /\ atr = <["UNIT" := unit_of ft]> raw.
Proof.
  intros Hext H. unfold read_attributes in H. rewrite Hext in H.
  destruct (isfile w File); [|discriminate]. split; [done|].
  cbn [negb] in H. bind_inv H. bind_inv H. injection H as <-.
  apply getitem_Ok in E0. eauto.
Qed.

Lemma read_attributes_h5_inv w File raw :
  read_attributes_h5 w File = Ok raw ->
  exists root ks k0 attrs,
    h5py_File w File = Ok root /\ h5_keys root = Ok ks
    /\ (("interferograms" ∈ ks /\ k0 = "interferograms")
        \/ (("interferograms" ∉ ks) /\ "coherence" ∈ ks /\ k0 = "coherence")
        \/ (("interferograms" ∉ ks) /\ ("coherence" ∉ ks) /\ "timeseries" ∈ ks
            /\ k0 = "timeseries")
        \/ (("interferograms" ∉ ks) /\ ("coherence" ∉ ks) /\ ("timeseries" ∉ ks)
            /\ head ks = Some k0))
    /\ ((k0 ∈ ["interferograms"; "coherence"; "wrapped"]
         /\ exists g ms m o,
             h5_getitem root root k0 = Ok g /\ h5_keys g = Ok ms
             /\ head ms = Some m /\ h5_getitem root g m = Ok o
             /\ attrs = h5_attrs o)
        \/ (k0 ∈ ["dem"; "velocity"; "mask"; "temporal_coherence"; "rmse";
                  "timeseries"]
            /\ exists g, h5_getitem root root k0 = Ok g /\ attrs = h5_attrs g))
    /\ ((k0 <> "timeseries"
         /\ raw = <["FILE_TYPE" := k0]> (<["PROCESSOR" := "pysar"]> attrs))
        \/ (k0 = "timeseries" /\ is_Some (attrs !! "ref_date")
            /\ raw = <["FILE_TYPE" := k0]> (<["PROCESSOR" := "pysar"]> attrs))
        \/ (k0 = "timeseries" /\ attrs !! "ref_date" = None
            /\ exists g ms d,
                h5_getitem root root k0 = Ok g /\ h5_keys g = Ok ms
                /\ Py.sorted_first ms = Ok d
                /\ raw = <["ref_date" := d]>
                           (<["FILE_TYPE" := k0]>
                              (<["PROCESSOR" := "pysar"]> attrs)))).
Proof.
  unfold read_attributes_h5. intros H.
  bind_inv H. bind_inv H. cbn zeta in H. bind_inv H. bind_inv H.
  rename a into root, a0 into ks, a1 into k0, a2 into attrs.
  exists root, ks, k0, attrs. split; [done|]. split; [done|]. split.
  { destruct (Py.isin "interferograms" ks) eqn:E3.
    { apply isin_true in E3. left. split; [done|].
      destruct ks; [by apply elem_of_nil in E3|]. by injection E1 as <-. }
    apply isin_false in E3.
    destruct (Py.isin "coherence" ks) eqn:E4.
    { apply isin_true in E4. right. left. do 2 (split; [done|]).
      destruct ks; [by apply elem_of_nil in E4|]. by injection E1 as <-. }
    apply isin_false in E4.
    destruct (Py.isin "timeseries" ks) eqn:E5.
    { apply isin_true in E5. do 2 right. left. do 3 (split; [done|]).
      destruct ks; [by apply elem_of_nil in E5|]. by injection E1 as <-. }
    apply isin_false in E5. do 3 right. do 3 (split; [done|]).
    destruct ks; [discriminate|]. by injection E1 as <-. }
  split.
  { destruct (Py.isin k0 ["interferograms"; "coherence"; "wrapped"]) eqn:E3.
    { left. split; [by apply isin_true|].
      apply bind_Ok in E2 as (g & Hg & E2).
      apply bind_Ok in E2 as (ms & Hms & E2).
      apply bind_Ok in E2 as (m & Hm & E2).
      apply bind_Ok in E2 as (o & Ho & E2).
      injection E2 as <-. exists g, ms, m, o. split_and!; try done.
      destruct ms; [discriminate|]. by injection Hm as <-. }
    destruct (Py.isin k0 ["dem"; "velocity"; "mask"; "temporal_coherence";
                          "rmse"; "timeseries"]) eqn:E4; [|discriminate].
    right. split; [by apply isin_true|].
    apply bind_Ok in E2 as (g & Hg & E2). injection E2 as <-. eauto. }
  destruct (String.eqb_spec k0 "timeseries") as [->|Hne].
  - right.
    assert (Hb : (<["FILE_TYPE" := "timeseries"]>
                    (<["PROCESSOR" := "pysar"]> attrs)) !! "ref_date"
                 = attrs !! "ref_date") by (by rewrite !lookup_insert_ne).
    rewrite Hb in H. destruct (attrs !! "ref_date") as [v|] eqn:Hr.
    + left. injection H as <-. eauto.
    + right. split; [done|]. split; [done|].
      apply bind_Ok in H as (g & Hg & H).
      apply bind_Ok in H as (ms & Hms & H).
      apply bind_Ok in H as (d & Hd & H).
      injection H as <-. exists g, ms, d. done.
  - left. by injection H as <-.
Qed.

(** X4: the group of a container.  [read_attributes] takes
    [interferograms] if the file has such a group, else [coherence], else
    [timeseries], else the first group of the file; [FILE_TYPE] is the
    name of the group taken, one of the nine names the code knows.  A
    file without groups is an [IndexError], and a first group of another
    name, where none of the three is there, is the [NameError] of the
    unbound [attrs]. *)
Theorem read_attributes_group w File root ks :
  Py.isin (ext_of File) [".h5"; ".he5"] = true ->
  isfile w File = true ->
  h5py_File w File = Ok root ->
  h5_keys root = Ok ks ->
  (forall atr, read_attributes w File = Ok atr ->
     exists k0,
       atr !! "FILE_TYPE" = Some k0
       /\ k0 ∈ ["interferograms"; "coherence"; "wrapped"; "dem"; "velocity";
                "mask"; "temporal_coherence"; "rmse"; "timeseries"]
       /\ (("interferograms" ∈ ks /\ k0 = "interferograms")
           \/ (("interferograms" ∉ ks) /\ "coherence" ∈ ks /\ k0 = "coherence")
           \/ (("interferograms" ∉ ks) /\ ("coherence" ∉ ks)
               /\ "timeseries" ∈ ks /\ k0 = "timeseries")
           \/ (("interferograms" ∉ ks) /\ ("coherence" ∉ ks)
               /\ ("timeseries" ∉ ks) /\ head ks = Some k0)))
  /\ (ks = [] -> read_attributes w File = Raise IndexError)
  /\ (forall k0, head ks = Some k0 ->
      ("interferograms" ∉ ks) -> ("coherence" ∉ ks) -> ("timeseries" ∉ ks) ->
      k0 ∉ ["interferograms"; "coherence"; "wrapped"; "dem"; "velocity";
            "mask"; "temporal_coherence"; "rmse"; "timeseries"] ->
      read_attributes w File = Raise (NameError "attrs")).
Proof.
  intros Hext Hfile Hroot Hks. split; [|split].
  - intros atr H.
    destruct (read_attributes_container _ _ _ Hext H)
      as (_ & raw & ft & Hraw & Hft & ->).
    destruct (read_attributes_h5_inv _ _ _ Hraw)
      as (root' & ks' & k0 & attrs & Hroot' & Hks' & Hchoice & Hsrc & Hrest).
    rewrite Hroot in Hroot'. injection Hroot' as <-.
    rewrite Hks in Hks'. injection Hks' as <-.
    assert (Hk0 : raw !! "FILE_TYPE" = Some k0).
    { destruct Hrest as [(_ & ->)|[(_ & _ & ->)|(_ & _ & g & ms & d & _ & _ & _ & ->)]];
        rewrite ?(lookup_insert_ne _ "ref_date") by done;
        apply lookup_insert_eq. }
    exists k0. rewrite lookup_insert_ne by done. split; [done|].
    split; [|done]. destruct Hsrc as [[Hin _]|[Hin _]]; set_solver.
  - intros ->. unfold read_attributes, read_attributes_h5.
    rewrite Hext, Hfile, Hroot. cbn [negb mbind result_bind]. by rewrite Hks.
  - intros k0 Hhead H1 H2 H3 Hk0.
    unfold read_attributes, read_attributes_h5.
    rewrite Hext, Hfile, Hroot. cbn [negb mbind result_bind]. rewrite Hks.
    cbn [mbind result_bind].
    rewrite !(proj2 (isin_false _ ks)) by done.
    destruct ks as [|k1 ks']; [discriminate|]. injection Hhead as ->.
    cbn [Py.first mbind result_bind].
    rewrite (proj2 (isin_false k0 ["interferograms"; "coherence"; "wrapped"]))
      by set_solver.
    by rewrite (proj2 (isin_false k0 _)) by set_solver.
Qed.

(** X5: the attributes of a time series.  [read_attributes] returns the
    attributes of the group [timeseries], with [PROCESSOR], [FILE_TYPE] and
    [UNIT] set; [ref_date] is the attribute of the group where it has one,
    and otherwise a member of the group whose name is least in the order
    of strings. *)
Theorem read_attributes_ref_date w File atr root g :
  Py.isin (ext_of File) [".h5"; ".he5"] = true ->
  read_attributes w File = Ok atr ->
  atr !! "FILE_TYPE" = Some "timeseries" ->
  h5py_File w File = Ok root ->
  h5_getitem root root "timeseries" = Ok g ->
  (forall k, k ∉ ["PROCESSOR"; "FILE_TYPE"; "UNIT"; "ref_date"] ->
     atr !! k = h5_attrs g !! k)
  /\ match h5_attrs g !! "ref_date" with
     | Some v => atr !! "ref_date" = Some v
     | None =>
         exists ms d,
           h5_keys g = Ok ms /\ atr !! "ref_date" = Some d
           /\ d ∈ ms /\ forall x, x ∈ ms -> String.leb d x = true
     end.
Proof.
  intros Hext H Hft Hroot Hg.
  destruct (read_attributes_container _ _ _ Hext H)
    as (_ & raw & ft & Hraw & Hft' & ->).
  rewrite lookup_insert_ne in Hft by done.
  rewrite Hft in Hft'. injection Hft' as <-.
  destruct (read_attributes_h5_inv _ _ _ Hraw)
    as (root' & ks & k0 & attrs & Hroot' & _ & _ & Hsrc & Hrest).
  rewrite Hroot in Hroot'. injection Hroot' as <-.
  assert (k0 = "timeseries") as ->.
  { destruct Hrest as [(_ & ->)|[(_ & _ & ->)|(_ & _ & g' & ms & d & _ & _ & _ & ->)]];
      rewrite ?(lookup_insert_ne _ "ref_date") in Hft by done;
      rewrite lookup_insert_eq in Hft; congruence. }
  assert (attrs = h5_attrs g) as ->.
  { destruct Hsrc as [[Hin _]|(_ & g' & Hg' & ->)].
    - exfalso. clear -Hin.
      repeat (apply elem_of_cons in Hin as [Hin|Hin]; [discriminate|]).
      by apply elem_of_nil in Hin.
    - congruence. }
  destruct Hrest as [[Hne _]|[(_ & [v Hv] & ->)|(_ & Hnone & g' & ms & d & Hg' & Hms & Hd & ->)]];
    [done| |].
  - split.
    + intros k Hk. rewrite !lookup_insert_ne by set_solver. done.
    + rewrite Hv. by rewrite !lookup_insert_ne by done.
  - rewrite Hg in Hg'. injection Hg' as <-. split.
    + intros k Hk. rewrite !lookup_insert_ne by set_solver. done.
    + rewrite Hnone. exists ms, d. split; [done|].
      split; [rewrite lookup_insert_ne by done; apply lookup_insert_eq|].
      by apply sorted_first_least.
Qed.

End Container.

Lemma read_attributes_group_example :
  exists atr,
    read_attributes Examples.interferograms_world "ifg.h5" = Ok atr
    /\ atr !! "FILE_TYPE" = Some "interferograms".
Proof.
  destruct (attribute_at_key Examples.interferograms_world "ifg.h5"
              "PROCESSOR" "pysar") as (atr & Hatr & _); [by vm_compute|].
  destruct (read_attributes_group Examples.interferograms_world "ifg.h5"
              Examples.interferograms_root ["interferograms"])
    as (H & _); [by vm_compute|by vm_compute|reflexivity|reflexivity|].
  destruct (H atr Hatr) as (k0 & Hk0 & _ & Hc).
  exists atr. split; [done|].
  destruct Hc as [[_ ->]|[(Hn & _)|[(Hn & _)|(Hn & _)]]];
    [done|exfalso; apply Hn; set_solver..].
Defined.

(** The epochs [20100201] and [20100101]: the reference date is the
    second. *)
Lemma read_attributes_ref_date_example :
  exists atr d,
    read_attributes Examples.epochs_world "ts.h5" = Ok atr
    /\ atr !! "ref_date" = Some d
    /\ String.leb d "20100201" = true /\ String.leb d "20100101" = true.
Proof.
  destruct (attribute_at_key Examples.epochs_world "ts.h5"
              "FILE_TYPE" "timeseries") as (atr & Hatr & Hft); [by vm_compute|].
  destruct (read_attributes_ref_date Examples.epochs_world "ts.h5" atr
              (Group ∅ [("timeseries", Examples.epochs_group)])
              Examples.epochs_group)
    as (_ & H); [by vm_compute|done|done|reflexivity|reflexivity|].
  assert (Hnone : h5_attrs Examples.epochs_group !! "ref_date" = None)
    by (by vm_compute).
  rewrite Hnone in H. destruct H as (ms & d & Hms & Hd & _ & Hle).
  injection Hms as <-. exists atr, d. split; [done|]. split; [done|].
  split; apply Hle; set_solver.
Defined.

(** ** The sidecar parsers: rows and properties *)

(** A mapping filled item by item: the last item of a key is the one
    kept. *)
Lemma list_to_map_reverse_last (l1 l2 : list (string * string)) k v :
  k ∉ l2.*1 ->
  (list_to_map (reverse (l1 ++ (k, v) :: l2)) : dict) !! k = Some v.
Proof.
  intros Hk. rewrite reverse_app, reverse_cons, <- app_assoc.
  rewrite list_to_map_app, lookup_union_r.
  - simpl. apply lookup_insert_eq.
  - apply not_elem_of_list_to_map_1. rewrite fmap_reverse.
    by rewrite elem_of_reverse.
Qed.

Lemma list_to_map_reverse_none (l : list (string * string)) k :
  k ∉ l.*1 -> (list_to_map (reverse l) : dict) !! k = None.
Proof.
  intros Hk. apply not_elem_of_list_to_map_1. rewrite fmap_reverse.
  by rewrite elem_of_reverse.
Qed.

Section Sidecars.
Context {F image : Type}.
Implicit Types (w : world F image) (d : dict).

Lemma fold_dict_row_raise rows e :
  fold_left dict_row rows (Raise e) = Raise e.
Proof. induction rows as [|row rows IH]; simpl; [done|exact IH]. Qed.

Lemma fold_dict_row_pairs (kvs : list (string * string)) :
  fold_left dict_row (map (fun p => [p.1; p.2]) kvs) (Ok ∅)
  = Ok (list_to_map (reverse kvs)).
Proof.
  induction kvs as [|[k v] kvs IH] using rev_ind; [done|].
  rewrite map_app, fold_left_app, IH. simpl.
  by rewrite reverse_snoc.
Qed.

Lemma fold_dict_row_bad rows : forall d,
  Exists (fun row => length row <> 2%nat) rows ->
  fold_left dict_row rows (Ok d) = Raise ValueError.
Proof.
  induction rows as [|row rows IH]; intros d Hex.
  - by apply Exists_nil in Hex.
  - simpl. destruct row as [|k [|v [|x row]]]; simpl;
      try apply fold_dict_row_raise.
    apply IH. apply Exists_cons in Hex as [Hbad|Hex]; [done|done].
Qed.

(** X6: rows of an [.rsc] file.  Where [np.loadtxt] yields rows of two
    items each, [read_roipac_rsc] returns the mapping of first items to
    second items, the last row of a key being the one kept; a row of
    another number of items is a [ValueError]. *)
Theorem read_roipac_rsc_rows w File rows :
  loadtxt w File = Ok (Str2D rows) ->
  (forall kvs : list (string * string),
     rows = map (fun p => [p.1; p.2]) kvs ->
     exists d, read_roipac_rsc w File = Ok d
       /\ d = list_to_map (reverse kvs)
       /\ (forall k, k ∉ kvs.*1 -> d !! k = None)
       /\ (forall l1 l2 k v, kvs = (l1 ++ (k, v) :: l2)%list -> k ∉ l2.*1 ->
           d !! k = Some v))
  /\ (Exists (fun row => length row <> 2%nat) rows ->
      read_roipac_rsc w File = Raise ValueError).
Proof.
  intros Hl. unfold read_roipac_rsc. rewrite Hl. cbn [mbind result_bind].
  split.
  - intros kvs ->. rewrite fold_dict_row_pairs.
    eexists. split; [done|]. split; [done|]. split.
    + intros k Hk. by apply list_to_map_reverse_none.
    + intros l1 l2 k v -> Hk. by apply list_to_map_reverse_last.
  - apply fold_dict_row_bad.
Qed.

Lemma chars_length s : length (chars s) = String.length s.
Proof.
  unfold chars. rewrite length_map.
  induction s as [|c s IH]; simpl; [done|]. by rewrite IH.
Qed.

(** X7: an [.rsc] file of one row.  [np.loadtxt] yields a 1-D array for
    it, and [dict] takes every item of the array, a string, for a pair:
    [read_roipac_rsc] fails with [ValueError] unless every item has two
    characters.  An empty file gives the empty mapping. *)
Theorem read_roipac_rsc_one_row w File row :
  loadtxt w File = Ok (Str1D row) ->
  (row = [] -> read_roipac_rsc w File = Ok ∅)
  /\ (Exists (fun item => String.length item <> 2%nat) row ->
      read_roipac_rsc w File = Raise ValueError).
Proof.
  intros Hl. unfold read_roipac_rsc. rewrite Hl. cbn [mbind result_bind].
  split; [by intros ->|].
  intros Hex. apply fold_dict_row_bad. apply Exists_exists.
  apply Exists_exists in Hex as (item & Hin & Hlen).
  exists (chars item). split; [by apply (list_elem_of_fmap_2 chars)|].
  by rewrite chars_length.
Qed.

Lemma fold_xml_child_raise props e :
  fold_left xml_child props (Raise e) = Raise e.
Proof. induction props as [|p props IH]; simpl; [done|exact IH]. Qed.

Lemma fold_xml_child_pairs (kvs : list (string * string)) :
  fold_left xml_child
    (map (fun p => {| prop_name := Some p.1; prop_value := Some p.2 |}) kvs)
    (Ok ∅)
  = Ok (list_to_map (reverse kvs)).
Proof.
  induction kvs as [|[k v] kvs IH] using rev_ind; [done|].
  rewrite map_app, fold_left_app, IH. simpl.
  by rewrite reverse_snoc.
Qed.

(** X8: the properties of an ISCE xml file.  Where every [property]
    element has a name and a value, [read_isce_xml] returns the mapping of
    names to values, the last element of a name being the one kept, with
    [WIDTH] set to the value of [width] and [FILE_LENGTH] to that of
    [length]; it raises the [KeyError] of the one that is missing.  The
    first element without a name is a [KeyError], without a value an
    [AttributeError]. *)
Theorem read_isce_xml_properties w File props :
  ET_parse w File = Ok props ->
  (forall kvs : list (string * string),
     props = map (fun p => {| prop_name := Some p.1;
                              prop_value := Some p.2 |}) kvs ->
     let xmldict : dict := list_to_map (reverse kvs) in
     read_isce_xml w File =
       match xmldict !! "width", xmldict !! "length" with
       | Some width, Some len =>
           Ok (<["FILE_LENGTH" := len]> (<["WIDTH" := width]> xmldict))
       | Some _, None => Raise (KeyError "length")
       | None, _ => Raise (KeyError "width")
       end)
  /\ (forall (kvs : list (string * string)) p rest,
      props = (map (fun p => {| prop_name := Some p.1;
                                prop_value := Some p.2 |}) kvs
               ++ p :: rest)%list ->
      (prop_name p = None -> read_isce_xml w File = Raise (KeyError "name"))
      /\ (is_Some (prop_name p) -> prop_value p = None ->
          read_isce_xml w File = Raise AttributeError)).
Proof.
  intros Hp. unfold read_isce_xml. rewrite Hp. cbn [mbind result_bind].
  split.
  - intros kvs ->. rewrite fold_xml_child_pairs. cbn [mbind result_bind].
    cbn zeta. unfold Py.getitem.
    destruct (list_to_map (reverse kvs) !! "width") as [wd|] eqn:Hw; [|done].
    cbn [mbind result_bind]. rewrite lookup_insert_ne by done.
    by destruct (_ !! "length").
  - intros kvs p rest ->. rewrite fold_left_app, fold_xml_child_pairs.
    simpl. split.
    + intros ->. simpl. by rewrite fold_xml_child_raise.
    + intros [n ->] ->. simpl. by rewrite fold_xml_child_raise.
Qed.

End Sidecars.

(** Two rows of the key [WIDTH]: the second is kept. *)
Lemma read_roipac_rsc_rows_example :
  exists d,
    read_roipac_rsc
      (Examples.roipac_world "a.unw" [["WIDTH"; "2"]; ["WIDTH"; "3"]] [] [])
      "a.unw.rsc" = Ok d
    /\ d !! "WIDTH" = Some "3".
Proof.
  destruct (read_roipac_rsc_rows
              (Examples.roipac_world "a.unw" [["WIDTH"; "2"]; ["WIDTH"; "3"]]
                 [] [])
              "a.unw.rsc" [["WIDTH"; "2"]; ["WIDTH"; "3"]])
    as [H _]; [by vm_compute|].
  destruct (H [("WIDTH", "2"); ("WIDTH", "3")] eq_refl)
    as (d & Hd & _ & _ & Hlast).
  exists d. split; [done|].
  apply (Hlast [("WIDTH", "2")] [] "WIDTH" "3" eq_refl). set_solver.
Defined.

(** The one row [WIDTH 100] is no mapping. *)
Lemma read_roipac_rsc_one_row_example :
  read_roipac_rsc Examples.one_row_world "a.unw.rsc" = Raise ValueError.
Proof.
  destruct (read_roipac_rsc_one_row Examples.one_row_world "a.unw.rsc"
              ["WIDTH"; "100"]) as [_ H]; [by vm_compute|].
  apply H. apply Exists_cons_hd. by vm_compute.
Defined.

(** The properties [width] and [length] of an xml file *)
Lemma read_isce_xml_properties_example :
  Examples.at_keys ["WIDTH"; "FILE_LENGTH"; "width"]
    (read_isce_xml
       (Examples.isce_world "a.slc" [("width", "2"); ("length", "1")] [])
       "a.slc.xml")
  = Ok [Some "2"; Some "1"; Some "2"].
Proof.
  destruct (read_isce_xml_properties
              (Examples.isce_world "a.slc" [("width", "2"); ("length", "1")] [])
              "a.slc.xml"
              (map (fun p => {| prop_name := Some p.1; prop_value := Some p.2 |})
                 [("width", "2"); ("length", "1")]))
    as [H _]; [by vm_compute|].
  rewrite (H [("width", "2"); ("length", "1")] eq_refl).
  vm_compute. reflexivity.
Defined.

(** ** Merged attributes *)

Lemma map_fold_insert_union (m acc : dict) :
  map_fold (fun key value atr => <[key := value]> atr) acc m = m ∪ acc.
Proof.
  apply (map_fold_weak_ind
           (fun (r : dict) (m : dict) => r = m ∪ acc)).
  - by rewrite (left_id_L ∅ (∪)).
  - intros k v m' r _ ->. by rewrite insert_union_l.
Qed.

(** X9: [merge_attribute(atr1, atr2)] holds the keys of both mappings; a
    key of both has the value of [atr2].  Merging is associative, and a
    mapping merged with itself is unchanged. *)
Theorem merge_attribute_union (atr1 atr2 atr3 : dict) :
  merge_attribute atr1 atr2 = atr2 ∪ atr1
  /\ (forall k, merge_attribute atr1 atr2 !! k
                = match atr2 !! k with
                  | Some v => Some v
                  | None => atr1 !! k
                  end)
  /\ merge_attribute (merge_attribute atr1 atr2) atr3
     = merge_attribute atr1 (merge_attribute atr2 atr3)
  /\ merge_attribute atr1 atr1 = atr1.
Proof.
  assert (H : forall a b : dict, merge_attribute a b = b ∪ a).
  { intros a b. unfold merge_attribute. rewrite !map_fold_insert_union.
    by rewrite (right_id_L ∅ (∪)). }
  split; [apply H|]. split; [|split].
  - intros k. rewrite H, lookup_union.
    destruct (atr2 !! k), (atr1 !! k); done.
  - rewrite !H. by rewrite (assoc_L (∪)).
  - rewrite H. apply (idemp_L (∪)).
Qed.

(** ** Templates *)

Lemma split_on_two sep (name value tail : string) :
  sep ∉ list_ascii_of_string name ->
  sep ∉ list_ascii_of_string value ->
  tail = EmptyString \/ (exists t, tail = String sep t) ->
  exists rest,
    Py.split_on sep (name ++ String sep (value ++ tail)) = name :: value :: rest.
Proof.
  intros Hn Hv Ht. unfold Py.split_on.
  rewrite split_on_go_plain by done. simpl.
  rewrite Ascii.eqb_refl. rewrite split_on_go_plain by done. simpl.
  destruct Ht as [->|[t ->]]; simpl.
  - by exists [].
  - rewrite Ascii.eqb_refl. eauto.
Qed.

Lemma startswith_append (name s : string) c :
  name <> EmptyString ->
  Py.startswith (name ++ s) c = Py.startswith name c.
Proof. by destruct name. Qed.

Section Templates.
Variable getenv : string -> option string.

(** X10: a line of a template.  The text before the first [=] is the
    name, and the text between the first [=] and the second, if there is
    a second, is the value: what follows a second [=] is dropped.  The
    name is stripped; the value is cut at its first [#], stripped, and
    passed through [check_variable_name].  A line without [=], and a line
    that starts with [%] or [#], leaves the mapping as it is. *)
Theorem template_line_fields (d : dict) (name value tail : string) :
  "="%char ∉ list_ascii_of_string name ->
  "="%char ∉ list_ascii_of_string value ->
  tail = EmptyString \/ (exists t, tail = String "="%char t) ->
  Py.startswith name "%"%char = false ->
  Py.startswith name "#"%char = false ->
  name <> EmptyString ->
  template_line getenv (Ok d) (name ++ String "="%char (value ++ tail))
  = (atrValue ← check_variable_name getenv
                  (Py.strip (Py.before "#"%char
                               (Py.remove_char "010"%char value)));
     Ok (<[Py.strip name := atrValue]> d))
  /\ (forall line, "="%char ∉ list_ascii_of_string line ->
      template_line getenv (Ok d) line = Ok d)
  /\ (forall line,
      Py.startswith line "%"%char = true \/ Py.startswith line "#"%char = true ->
      template_line getenv (Ok d) line = Ok d).
Proof.
  intros Hn Hv Ht Hp Hh Hne. split; [|split].
  - unfold template_line. cbn [mbind result_bind].
    destruct (split_on_two "="%char name value tail Hn Hv Ht) as [rest ->].
    by rewrite !startswith_append, Hp, Hh by done.
  - intros line Hl. unfold template_line. cbn [mbind result_bind].
    by rewrite split_on_none.
  - intros line Hl. unfold template_line. cbn [mbind result_bind].
    destruct (Py.split_on "="%char line) as [|c0 [|c1 rest]]; [done..|].
    by destruct Hl as [-> | ->]; rewrite ?orb_true_r.
Qed.

End Templates.

Lemma prefix_append (old rest : string) : String.prefix old (old ++ rest) = true.
Proof.
  induction old as [|c old IH]; simpl; [by destruct rest|].
  by destruct (Ascii.ascii_dec c c).
Qed.

Lemma replace_go_skip (old new pre : string) : forall s,
  Py.replace_go old new (String.length pre) (pre ++ s)
  = Py.replace_go old new 0 s.
Proof. induction pre as [|c pre IH]; intros s; simpl; [done|apply IH]. Qed.

Lemma replace_prefix (old new rest : string) :
  old <> EmptyString ->
  Py.replace old new (old ++ rest) = new ++ Py.replace old new rest.
Proof.
  destruct old as [|c old]; [done|]. intros _. unfold Py.replace.
  change (String c old ++ rest) with (String c (old ++ rest)).
  cbn [Py.replace_go].
  change (String c (old ++ rest)) with (String c old ++ rest).
  rewrite prefix_append. f_equal.
  replace (String.length (String c old) - 1)%nat with (String.length old)
    by (simpl; lia).
  apply replace_go_skip.
Qed.

Lemma before_append c (name rest : string) :
  c ∉ list_ascii_of_string name ->
  rest = EmptyString \/ (exists t, rest = String c t) ->
  Py.before c (name ++ rest) = name.
Proof.
  intros Hn Hr. induction name as [|x name IH]; simpl.
  - destruct Hr as [->|[t ->]]; simpl; [done|]. by rewrite Ascii.eqb_refl.
  - simpl in Hn. apply not_elem_of_cons in Hn as [Hne Hn].
    destruct (Ascii.eqb_spec c x) as [->|_]; [done|]. by rewrite IH.
Qed.

Section Variables.
Variable getenv : string -> option string.

(** X11: [check_variable_name] leaves a path that does not start with
    [$] as it is.  In a path [$NAME], or [$NAME/...], it replaces every
    occurrence of [$NAME] by the value of the environment variable
    [NAME], the first one at the start of the path; where the variable is
    not set, it fails with [TypeError]. *)
Theorem check_variable_name_expand :
  (forall path, Py.startswith path "$"%char = false ->
     check_variable_name getenv path = Ok path)
  /\ (forall name rest,
      "/"%char ∉ list_ascii_of_string name ->
      rest = EmptyString \/ (exists t, rest = String "/"%char t) ->
      check_variable_name getenv (String "$"%char (name ++ rest))
      = match getenv name with
        | Some p0 => Ok (p0 ++ Py.replace (String "$"%char name) p0 rest)
        | None => Raise TypeError
        end).
Proof.
  split.
  - intros path Hp. unfold check_variable_name.
    destruct path as [|c path]; [done|]. simpl in Hp.
    cbn [Py.before]. destruct (Ascii.eqb "/"%char c); [done|].
    destruct c as [[] [] [] [] [] [] [] []]; done.
  - intros name rest Hn Hr. unfold check_variable_name.
    change (String "$"%char (name ++ rest))
      with (String "$"%char name ++ rest).
    rewrite before_append; [|simpl; set_solver|done].
    destruct (getenv name) as [p0|]; [|done].
    by rewrite replace_prefix.
Qed.

End Variables.

(** The line [k = v = w]: the value of [k] is [v]. *)
Lemma template_line_fields_example :
  Examples.at_keys ["k"]
    (template_line (fun _ => None) (Ok ∅) "k = v = w")
  = Ok [Some "v"].
Proof.
  destruct (template_line_fields (fun _ => None) ∅ "k " " v " "= w")
    as [H _];
    [by apply not_in_chars|by apply not_in_chars
    |right; by eexists|done|done|done|].
  change ("k = v = w") with ("k " ++ String "="%char (" v " ++ "= w")).
  rewrite H. vm_compute. reflexivity.
Defined.

(** [$HOME/data/$HOME] where [HOME] is [/root] *)
Lemma check_variable_name_expand_example :
  check_variable_name
    (fun n => if String.eqb n "HOME" then Some "/root" else None)
    "$HOME/data/$HOME"
  = Ok "/root/data//root".
Proof.
  destruct (check_variable_name_expand
              (fun n => if String.eqb n "HOME" then Some "/root" else None))
    as [_ H].
  change "$HOME/data/$HOME" with (String "$"%char ("HOME" ++ "/data/$HOME")).
  rewrite H; [by vm_compute|by apply not_in_chars|right; by eexists].
Defined.

(** ** Sizes and samples of the decoders *)

Lemma pairs_length_le {A : Type} (l : list A) :
  (2 * length (Np.pairs l) <= length l)%nat.
Proof.
  assert (H : forall n (l : list A), (length l <= n)%nat ->
            (2 * length (Np.pairs l) <= length l)%nat).
  { clear l. induction n as [|n IH]; intros l Hl.
    - destruct l; [simpl; lia|simpl in Hl; lia].
    - destruct l as [|a [|b l]]; [simpl; lia..|].
      cbn [Np.pairs length]. specialize (IH l). simpl in Hl.
      assert (length l <= n)%nat by lia. specialize (IH H). lia. }
  by apply (H (length l)).
Qed.

Lemma reshape_wrong_size {A : Type} (rows cols : nat) (l : list A) :
  length l <> (rows * cols)%nat ->
  Np.reshape (Z.of_nat rows) (Z.of_nat cols) l = Raise ValueError.
Proof.
  intros Hl. unfold Np.reshape.
  rewrite (proj2 (Z.ltb_ge (Z.of_nat rows) 0)) by lia.
  rewrite (proj2 (Z.ltb_ge (Z.of_nat cols) 0)) by lia. cbn [orb].
  rewrite (proj2 (Z.eqb_neq _ _)); [done|]. nia.
Qed.

Lemma shape_cast {A : Type} r c r' c' (a : list (list A)) :
  Np.shape r c a -> r = r' -> c = c' -> Np.shape r' c' a.
Proof. by intros H <- <-. Qed.

(** Arrays of one shape with the same items are equal. *)
Lemma shape_item_ext {A : Type} r c (a b : list (list A)) :
  Np.shape r c a -> Np.shape r c b ->
  (forall i j, (i < r)%nat -> (j < c)%nat -> Np.item a i j = Np.item b i j) ->
  a = b.
Proof.
  intros [Ha1 Ha2] [Hb1 Hb2] Hitem. apply list_eq. intros i.
  destruct (decide (i < r)%nat) as [Hi|Hi].
  - destruct (lookup_lt_is_Some_2 a i) as [ra Hra]; [lia|].
    destruct (lookup_lt_is_Some_2 b i) as [rb Hrb]; [lia|].
    rewrite Hra, Hrb. f_equal. apply list_eq. intros j.
    pose proof (proj1 (Forall_lookup _ a) Ha2 i ra Hra) as Hla.
    pose proof (proj1 (Forall_lookup _ b) Hb2 i rb Hrb) as Hlb.
    simpl in Hla, Hlb.
    destruct (decide (j < c)%nat) as [Hj|Hj].
    + specialize (Hitem i j Hi Hj). unfold Np.item in Hitem.
      by rewrite Hra, Hrb in Hitem.
    + rewrite !lookup_ge_None_2 by lia. done.
  - rewrite !lookup_ge_None_2 by lia. done.
Qed.

Section Decoders.
Context {F image : Type} (hypot arctan2 : F -> F -> F).
Implicit Types (w : world F image) (atr : dict).

(** X12: the decoders of a single real plane read the whole file: they
    return [FILE_LENGTH] lines of [WIDTH] samples, sample [(i, j)] being
    item [i * WIDTH + j] of the file, when the file holds exactly
    [FILE_LENGTH * WIDTH] items, and fail in [reshape] for a shorter file
    and for a longer file alike. *)
Theorem read_real_exact_size w File atr W L :
  read_attributes w File = Ok atr ->
  width_of atr = Ok W ->
  length_of atr = Ok L ->
  (forall items, fromfile_float32 w File = Ok items ->
     (length items = (L * W)%nat ->
      exists data, read_real_float32 w File = Ok (data, atr)
        /\ Np.shape L W data
        /\ forall i j, (i < L)%nat -> (j < W)%nat ->
           Np.item data i j = items !! (i * W + j)%nat)
     /\ (length items <> (L * W)%nat ->
         read_real_float32 w File = Raise ValueError))
  /\ (forall items, fromfile_int16 w File = Ok items ->
      (length items = (L * W)%nat ->
       exists dem, read_real_int16 w File = Ok (dem, atr)
         /\ Np.shape L W dem
         /\ forall i j, (i < L)%nat -> (j < W)%nat ->
            Np.item dem i j = items !! (i * W + j)%nat)
      /\ (length items <> (L * W)%nat ->
          read_real_int16 w File = Raise ValueError)).
Proof.
  intros Hatr HW HL. split; intros items Hit.
  - unfold read_real_float32. rewrite Hatr. cbn [mbind result_bind].
    rewrite HW, HL, Hit. cbn [mbind result_bind]. split; intros Hlen.
    + rewrite (reshape_nat _ _ _ Hlen). cbn [mbind result_bind].
      eexists. split; [done|]. split; [by apply chunks_shape|].
      intros i j Hi Hj. by apply item_chunks.
    + by rewrite (reshape_wrong_size _ _ _ Hlen).
  - unfold read_real_int16. rewrite Hatr. cbn [mbind result_bind].
    rewrite HW, HL, Hit. cbn [mbind result_bind]. split; intros Hlen.
    + rewrite (reshape_nat _ _ _ Hlen). cbn [mbind result_bind].
      eexists. split; [done|]. split; [by apply chunks_shape|].
      intros i j Hi Hj. by apply item_chunks.
    + by rewrite (reshape_wrong_size _ _ _ Hlen).
Qed.

(** X13: [read_complex_float32] reads [FILE_LENGTH * WIDTH] complex
    samples, two float32 items each: it returns exactly when the file
    holds that many items or more, and fails in [reshape] when the file
    is shorter. *)
Theorem read_complex_float32_size w File real_imag atr W L items :
  read_attributes w File = Ok atr ->
  width_of atr = Ok W ->
  length_of atr = Ok L ->
  fromfile_float32 w File = Ok items ->
  ((exists r, read_complex_float32 hypot arctan2 w File real_imag = Ok r)
   <-> (2 * (L * W) <= length items)%nat)
  /\ ((length items < 2 * (L * W))%nat ->
      read_complex_float32 hypot arctan2 w File real_imag = Raise ValueError).
Proof.
  intros Hatr HW HL Hit.
  assert (Hshort : (length items < 2 * (L * W))%nat ->
    read_complex_float32 hypot arctan2 w File real_imag = Raise ValueError).
  { intros Hlen. unfold read_complex_float32.
    rewrite Hatr. cbn [mbind result_bind]. rewrite HW, HL, Hit.
    cbn [mbind result_bind]. rewrite reshape_wrong_size; [done|].
    rewrite length_take. pose proof (pairs_length_le items). lia. }
  split; [|done]. split.
  - intros [r Hr]. destruct (decide (2 * (L * W) <= length items)%nat);
      [done|]. rewrite Hshort in Hr by lia. discriminate.
  - intros Hlen. unfold read_complex_float32.
    rewrite Hatr. cbn [mbind result_bind]. rewrite HW, HL, Hit.
    cbn [mbind result_bind]. rewrite reshape_nat.
    + cbn [mbind result_bind]. destruct (real_imag =? 0); eauto.
    + apply length_take_le, pairs_length_ge. lia.
Qed.

(** X14: a box inside the file.  With [x1 <= WIDTH] and [y1] lines in the
    file, [read_float32] returns two planes of [y1 - y0] lines of
    [x1 - x0] samples; sample [(i, j)] of the amplitude is item
    [x0 + j] of line [y0 + i] of the file, and sample [(i, j)] of the phase
    is item [WIDTH + x0 + j] of that line. *)
Theorem read_float32_window_samples w File x0 y0 x1 y1 atr W L items :
  read_attributes w File = Ok atr ->
  width_of atr = Ok W ->
  length_of atr = Ok L ->
  fromfile_float32 w File = Ok items ->
  (y1 * 2 * W <= length items)%nat ->
  (x1 <= W)%nat ->
  exists amplitude phase,
    read_float32 w File (Some (x0, y0, x1, y1)) = Ok (amplitude, phase, atr)
    /\ Np.shape (y1 - y0) (x1 - x0) amplitude
    /\ Np.shape (y1 - y0) (x1 - x0) phase
    /\ forall i j, (i < y1 - y0)%nat -> (j < x1 - x0)%nat ->
       Np.item amplitude i j = items !! ((y0 + i) * (2 * W) + (x0 + j))%nat
       /\ Np.item phase i j
          = items !! ((y0 + i) * (2 * W) + (W + x0 + j))%nat.
Proof.
  intros Hatr HW HL Hit Hlen Hx.
  rewrite (read_float32_unfold w File _ atr W L items Hatr HW HL Hit).
  cbn zeta beta iota.
  set (flat := firstn (y1 * 2 * W) items).
  assert (Hflat : length flat = (y1 * (2 * W))%nat).
  { subst flat. rewrite length_take_le; lia. }
  rewrite (reshape_nat _ _ _ Hflat). cbn [mbind result_bind].
  pose proof (chunks_shape _ _ _ Hflat) as Hs.
  do 2 eexists. split; [done|]. split; [|split].
  - eapply shape_cast; [by apply slice2_shape|lia..].
  - eapply shape_cast; [by apply slice2_shape|lia..].
  - intros i j Hi Hj. split.
    + rewrite item_slice2, item_chunks by lia. subst flat.
      apply lookup_take_lt. nia.
    + rewrite item_slice2, item_chunks by lia. subst flat.
      rewrite lookup_take_lt by nia. f_equal; lia.
Qed.

(** X15: a box is a slice of the full decode.  Where the file holds the
    [FILE_LENGTH] lines, and the box lies inside ([x1 <= WIDTH],
    [y1 <= FILE_LENGTH]), [read_float32] with the box returns the planes
    of [read_float32] without a box, sliced by the box. *)
Theorem read_float32_window_is_slice w File x0 y0 x1 y1 atr W L items :
  read_attributes w File = Ok atr ->
  width_of atr = Ok W ->
  length_of atr = Ok L ->
  fromfile_float32 w File = Ok items ->
  (L * 2 * W <= length items)%nat ->
  (x1 <= W)%nat -> (y1 <= L)%nat ->
  exists amplitude phase,
    read_float32 w File None = Ok (amplitude, phase, atr)
    /\ read_float32 w File (Some (x0, y0, x1, y1))
       = Ok (Np.slice2 y0 y1 x0 x1 amplitude,
             Np.slice2 y0 y1 x0 x1 phase, atr).
Proof.
  intros Hatr HW HL Hit Hlen Hx Hy.
  rewrite !(read_float32_unfold w File _ atr W L items Hatr HW HL Hit).
  cbn zeta beta iota.
  set (full := firstn (L * 2 * W) items).
  set (part := firstn (y1 * 2 * W) items).
  assert (Hfull : length full = (L * (2 * W))%nat).
  { subst full. rewrite length_take_le; lia. }
  assert (Hpart : length part = (y1 * (2 * W))%nat).
  { subst part. rewrite length_take_le; nia. }
  rewrite (reshape_nat _ _ _ Hfull), (reshape_nat _ _ _ Hpart).
  cbn [mbind result_bind].
  pose proof (chunks_shape _ _ _ Hfull) as Hsf.
  pose proof (chunks_shape _ _ _ Hpart) as Hsp.
  assert (Ha : Np.slice2 y0 y1 x0 x1 (Np.chunks y1 (2 * W) part)
               = Np.slice2 y0 y1 x0 x1
                   (Np.slice2 0 L 0 W (Np.chunks L (2 * W) full))).
  { apply (shape_item_ext (y1 - y0) (x1 - x0)).
    - eapply shape_cast; [by apply slice2_shape|lia..].
    - eapply shape_cast;
        [apply slice2_shape; eapply shape_cast;
           [by apply slice2_shape|reflexivity..]|lia..].
    - intros i j Hi Hj.
      rewrite !item_slice2 by lia. rewrite !item_chunks by lia.
      subst full part. rewrite !lookup_take_lt by nia. done. }
  assert (Hp : Np.slice2 y0 y1 (W + x0) (W + x1) (Np.chunks y1 (2 * W) part)
               = Np.slice2 y0 y1 x0 x1
                   (Np.slice2 0 L (W + 0) (W + W) (Np.chunks L (2 * W) full))).
  { apply (shape_item_ext (y1 - y0) (x1 - x0)).
    - eapply shape_cast; [by apply slice2_shape|lia..].
    - eapply shape_cast;
        [apply slice2_shape; eapply shape_cast;
           [by apply slice2_shape|reflexivity..]|lia..].
    - intros i j Hi Hj.
      rewrite !item_slice2 by lia. rewrite !item_chunks by lia.
      subst full part. rewrite !lookup_take_lt by nia. f_equal; lia. }
  do 2 eexists. split; [done|]. by rewrite Ha, Hp.
Qed.

End Decoders.

(** A GAMMA intensity file of two lines of two samples *)
Lemma read_real_exact_size_example :
  exists data atr,
    read_real_float32 (Examples.roipac_world "a.mli" Examples.rsc22 [1; 2; 3; 4] [])
      "a.mli" = Ok (data, atr)
    /\ Np.item data 1 0 = Some 3.
Proof.
  destruct (attributes_at_keys
              (Examples.roipac_world "a.mli" Examples.rsc22 [1; 2; 3; 4] [])
              "a.mli" "2" "2" 2 2)
    as (atr & Hatr & HW & HL); [by vm_compute..|].
  destruct (read_real_exact_size _ _ _ _ _ Hatr HW HL) as [H _].
  destruct (H [1; 2; 3; 4] eq_refl) as [Hok _].
  destruct (Hok eq_refl) as (data & Hr & _ & Hitem).
  exists data, atr. split; [done|]. by rewrite Hitem by lia.
Defined.

(** One line of two complex samples in four items *)
Lemma read_complex_float32_size_example :
  exists r,
    read_complex_float32 Examples.hyp Examples.arc Examples.int_world "a.int" 0
    = Ok r.
Proof.
  destruct (attributes_at_keys Examples.int_world "a.int" "2" "1" 2 1)
    as (atr & Hatr & HW & HL); [by vm_compute..|].
  destruct (read_complex_float32_size Examples.hyp Examples.arc
              Examples.int_world "a.int" 0 atr 2 1 [3; 4; 3; 4]
              Hatr HW HL eq_refl) as [H _].
  apply H. simpl. lia.
Defined.

(** The box [(1, 1, 2, 2)] on two lines of two samples: the last sample of
    either plane *)
Lemma read_float32_window_samples_example :
  exists amplitude phase atr,
    read_float32 Examples.unw_world "a.unw" (Some (1, 1, 2, 2)%nat)
    = Ok (amplitude, phase, atr)
    /\ Np.item amplitude 0 0 = Some 6 /\ Np.item phase 0 0 = Some 8.
Proof.
  destruct (attributes_at_keys Examples.unw_world "a.unw" "2" "2" 2 2)
    as (atr & Hatr & HW & HL); [by vm_compute..|].
  destruct (read_float32_window_samples Examples.unw_world "a.unw" 1 1 2 2
              atr 2 2 [1; 2; 3; 4; 5; 6; 7; 8] Hatr HW HL eq_refl)
    as (amp & pha & Hr & _ & _ & Hitem); [simpl; lia|lia|].
  exists amp, pha, atr. split; [done|].
  destruct (Hitem 0%nat 0%nat) as [-> ->]; [lia|lia|]. done.
Defined.

Lemma read_float32_window_is_slice_example :
  exists amplitude phase atr,
    read_float32 Examples.unw_world "a.unw" None = Ok (amplitude, phase, atr)
    /\ read_float32 Examples.unw_world "a.unw" (Some (0, 0, 1, 1)%nat)
       = Ok (Np.slice2 0 1 0 1 amplitude, Np.slice2 0 1 0 1 phase, atr).
Proof.
  destruct (attributes_at_keys Examples.unw_world "a.unw" "2" "2" 2 2)
    as (atr & Hatr & HW & HL); [by vm_compute..|].
  destruct (read_float32_window_is_slice Examples.unw_world "a.unw" 0 0 1 1
              atr 2 2 [1; 2; 3; 4; 5; 6; 7; 8] Hatr HW HL eq_refl)
    as (amp & pha & Hfull & Hwin); [simpl; lia|lia|lia|].
  by exists amp, pha, atr.
Defined.

(** ** Boxes and formats in [read] *)

Section ReadFormats.
Context {F image : Type} (hypot arctan2 : F -> F -> F).
Implicit Types (w : world F image) (atr : dict).


(** X17: formats [read] does not know.  With the attributes read and
    updated, a file that is no container and no picture fails with the
    [NameError] of the unbound name [processfor]: an ISCE file of an
    extension other than [.flat], [.cor] and [.slc], and a ROI_PAC or
    GAMMA file of an extension other than the eight the code names. *)
Theorem read_unknown_format w File b epoch atr0 atr p :
  read_attributes w File = Ok atr0 ->
  atr0 !! "PROCESSOR" = Some p ->
  update_attributes atr0 b = Ok atr ->
  Py.isin (ext_of File) [".h5"; ".he5"] = false ->
  Py.isin (ext_of File) [".jpeg"; ".jpg"; ".png"; ".ras"; ".bmp"] = false ->
  (p = "isce" /\ ext_of File ∉ [".flat"; ".cor"; ".slc"])
  \/ (p ∈ ["roipac"; "gamma"]
      /\ ext_of File ∉ [".unw"; ".cor"; ".hgt"; ".dem"; ".int"; ".trans";
                         ".mli"; ".slc"]) ->
  read hypot arctan2 w File b epoch = Raise (NameError "processfor").
Proof.
  intros Hatr Hp Hup Hh5 Himg Hfmt.
  rewrite (read_unfold hypot arctan2 w File b epoch _ _ Hatr Hp).
  rewrite Hup. cbn [mbind result_bind]. rewrite Hh5, Himg.
  destruct Hfmt as [[-> Hext]|[Hp' Hext]].
  - rewrite String.eqb_refl. unfold read_isce.
    rewrite !(proj2 (isin_false (ext_of File) _)) by set_solver. done.
  - destruct (String.eqb_spec p "isce") as [->|_]; [set_solver|].
    rewrite (proj2 (isin_true p _) Hp'). unfold read_roipac.
    rewrite (proj2 (isin_false (ext_of File) _)) by set_solver.
    repeat match goal with
           | |- context [String.eqb (ext_of File) ?e] =>
               destruct (String.eqb_spec (ext_of File) e) as [He|_];
               [rewrite He in Hext; set_solver|]
           end.
    done.
Qed.

End ReadFormats.


(** An ISCE file of the extension [.xyz] *)
Lemma read_unknown_format_example :
  read Examples.hyp Examples.arc
    (Examples.isce_world "a.xyz" [("width", "2"); ("length", "1")] [])
    "a.xyz" None ""
  = Raise (NameError "processfor").
Proof.
  destruct (attribute_at_key
              (Examples.isce_world "a.xyz" [("width", "2"); ("length", "1")] [])
              "a.xyz" "PROCESSOR" "isce") as (atr & Hatr & Hp);
    [by vm_compute|].
  apply (read_unknown_format Examples.hyp Examples.arc _ "a.xyz" None ""
           atr atr "isce" Hatr Hp eq_refl); [by vm_compute|by vm_compute|].
  left. split; [done|].
  assert (ext_of "a.xyz" = ".xyz") as -> by (by vm_compute). set_solver.
Defined.

(** ** Interleaved int16 samples *)

Section Interleaved.
Context {A : Type}.
Implicit Types (l : list A) (a : list (list A)).

Lemma concat_chunks_one n l : length l = n -> concat (Np.chunks n 1 l) = l.
Proof.
  revert l. induction n as [|n IH]; intros [|x l] Hl; simpl in *;
    [done|lia|lia|].
  f_equal. apply IH. lia.
Qed.

Lemma evens_lookup l : forall k, Np.evens l !! k = l !! (2 * k)%nat.
Proof.
  induction l as [l IH] using (induction_ltof1 _ (@length A)).
  unfold ltof in IH. intros k.
  destruct l as [|x [|y l]]; [done| |].
  - destruct k as [|k]; [done|].
    replace (2 * S k)%nat with (S (S (2 * k))) by lia. done.
  - destruct k as [|k]; [done|].
    replace (2 * S k)%nat with (S (S (2 * k))) by lia.
    cbn [Np.evens]. simpl. apply IH. simpl. lia.
Qed.

Lemma odds_lookup l : forall k, Np.odds l !! k = l !! (2 * k + 1)%nat.
Proof.
  induction l as [l IH] using (induction_ltof1 _ (@length A)).
  unfold ltof in IH. intros k.
  destruct l as [|x [|y l]]; [done| |].
  - destruct k as [|k]; [done|].
    replace (2 * S k + 1)%nat with (S (S (2 * k + 1))) by lia. done.
  - destruct k as [|k]; [done|].
    replace (2 * S k + 1)%nat with (S (S (2 * k + 1))) by lia.
    cbn [Np.odds]. simpl. apply IH. simpl. lia.
Qed.

Lemma evens_odds_length l m :
  length l = (2 * m)%nat ->
  length (Np.evens l) = m /\ length (Np.odds l) = m.
Proof.
  revert l. induction m as [|m IH]; intros l Hl.
  - by destruct l.
  - destruct l as [|x [|y l]]; simpl in Hl; [lia..|].
    destruct (IH l) as [H1 H2]; [lia|].
    cbn [Np.evens Np.odds length]. by rewrite H1, H2.
Qed.

Lemma concat_length_shape r c a :
  Np.shape r c a -> length (concat a) = (r * c)%nat.
Proof.
  revert r. induction a as [|row a IH]; intros r [Hr Hc]; simpl in *.
  - by subst r.
  - apply Forall_cons in Hc as [Hrow Hc]. rewrite length_app, Hrow.
    rewrite (IH (length a)) by done. subst r. lia.
Qed.

Lemma concat_lookup_shape r c a i j :
  Np.shape r c a -> (i < r)%nat -> (j < c)%nat ->
  concat a !! (i * c + j)%nat = Np.item a i j.
Proof.
  revert r i. induction a as [|row a IH]; intros r i [Hr Hc] Hi Hj;
    simpl in *; [lia|].
  apply Forall_cons in Hc as [Hrow Hc]. destruct i as [|i].
  - simpl. rewrite lookup_app_l by lia. done.
  - rewrite lookup_app_r by lia.
    replace (S i * c + j - length row)%nat with (i * c + j)%nat by lia.
    unfold Np.item. simpl. apply (IH (length a)); [done|lia|done].
Qed.

End Interleaved.

Lemma item_zip_pair {A B : Type} (re : list (list A)) (im : list (list B)) i j :
  Np.item (zip_with (zip_with pair) re im) i j
  = (x ← Np.item re i j; y ← Np.item im i j; Some (x, y)).
Proof.
  unfold Np.item. rewrite lookup_zip_with.
  destruct (re !! i) as [rr|]; simpl; [|done].
  destruct (im !! i) as [ri|]; simpl.
  - rewrite lookup_zip_with. done.
  - by destruct (rr !! j).
Qed.

Lemma zip_pair_shape {A B : Type} r c (re : list (list A)) (im : list (list B)) :
  Np.shape r c re -> Np.shape r c im ->
  Np.shape r c (zip_with (zip_with pair) re im).
Proof.
  intros [Hr1 Hr2] [Hi1 Hi2]. split.
  - rewrite length_zip_with. lia.
  - apply Forall_lookup. intros k row Hrow.
    apply lookup_zip_with_Some in Hrow as (rr & ri & -> & Hrr & Hri).
    rewrite length_zip_with.
    pose proof (proj1 (Forall_lookup _ re) Hr2 k rr Hrr) as H1.
    pose proof (proj1 (Forall_lookup _ im) Hi2 k ri Hri) as H2.
    simpl in H1, H2. lia.
Qed.

Section ComplexInt16.
Context {F image : Type}.
Implicit Types (w : world F image) (atr : dict).

(** X18: [read_complex_int16] with a box.  On a file of [y1] lines, a box
    with [x1 <= WIDTH] yields [y1 - y0] lines of [x1 - x0] complex
    samples; the real part of sample [(i, j)] is item [2 (x0 + j)] of line
    [y0 + i] of the file and the imaginary part is the next item.  A box
    that is not empty and has [x1 > WIDTH] fails in [reshape]: slicing
    yields fewer items than the box asks for. *)
Theorem read_complex_int16_window w File x0 y0 x1 y1 atr W L items :
  read_attributes w File = Ok atr ->
  width_of atr = Ok W ->
  length_of atr = Ok L ->
  fromfile_int16 w File = Ok items ->
  (y1 * 2 * W <= length items)%nat ->
  (x0 <= x1)%nat -> (y0 <= y1)%nat ->
  ((x1 <= W)%nat ->
   exists data,
     read_complex_int16 w File (Some (x0, y0, x1, y1)) = Ok (data, atr)
     /\ Np.shape (y1 - y0) (x1 - x0) data
     /\ forall i j, (i < y1 - y0)%nat -> (j < x1 - x0)%nat ->
        Np.item data i j
        = (re ← items !! ((y0 + i) * (2 * W) + 2 * (x0 + j))%nat;
           im ← items !! ((y0 + i) * (2 * W) + 2 * (x0 + j) + 1)%nat;
           Some (re, im)))
  /\ ((W < x1)%nat -> (x0 < x1)%nat -> (y0 < y1)%nat ->
      read_complex_int16 w File (Some (x0, y0, x1, y1)) = Raise ValueError).
Proof.
  intros Hatr HW HL Hit Hlen Hx01 Hy01.
  unfold read_complex_int16. rewrite Hatr. cbn [mbind result_bind].
  rewrite HW, HL. cbn [mbind result_bind]. rewrite Hit.
  cbn [mbind result_bind].
  set (part := firstn (y1 * 2 * W) items).
  assert (Hpart : length part = (y1 * (2 * W))%nat).
  { subst part. rewrite length_take_le; lia. }
  replace (2 * Z.of_nat W) with (Z.of_nat (2 * W)) by lia.
  rewrite (reshape_nat _ _ _ Hpart). cbn [mbind result_bind].
  pose proof (chunks_shape _ _ _ Hpart) as Hs1.
  set (data1 := Np.chunks y1 (2 * W) part) in *.
  set (sub := Np.slice2 y0 y1 (2 * x0) (2 * x1) data1).
  pose proof (slice2_shape y0 y1 (2 * x0) (2 * x1) _ _ _ Hs1) as Hsub.
  fold sub in Hsub.
  replace (Z.of_nat y1 - Z.of_nat y0) with (Z.of_nat (y1 - y0)) by lia.
  replace (Z.of_nat x1 - Z.of_nat x0) with (Z.of_nat (x1 - x0)) by lia.
  replace (2 * Z.of_nat (y1 - y0) * Z.of_nat (x1 - x0))
    with (Z.of_nat (2 * (y1 - y0) * (x1 - x0)))
    by (rewrite !Nat2Z.inj_mul; lia).
  change 1 with (Z.of_nat 1).
  pose proof (concat_length_shape _ _ _ Hsub) as Hflat.
  split.
  - intros Hx.
    assert (Hsub' : Np.shape (y1 - y0) (2 * (x1 - x0)) sub)
      by (eapply shape_cast; [exact Hsub|lia..]).
    pose proof (concat_length_shape _ _ _ Hsub') as Hflat'.
    rewrite reshape_nat by (rewrite Hflat'; lia).
    cbn [mbind result_bind].
    rewrite concat_chunks_one by (rewrite Hflat'; lia).
    destruct (evens_odds_length (concat sub) ((y1 - y0) * (x1 - x0)))
      as [He Ho]; [rewrite Hflat'; lia|].
    rewrite (reshape_nat _ _ _ He). cbn [mbind result_bind].
    rewrite (reshape_nat _ _ _ Ho). cbn [mbind result_bind].
    eexists. split; [done|]. split.
    + apply zip_pair_shape; by apply chunks_shape.
    + intros i j Hi Hj. rewrite item_zip_pair.
      rewrite !item_chunks by lia. rewrite evens_lookup, odds_lookup.
      assert (Hidx : forall d, (d < 2)%nat ->
        concat sub !! (2 * (i * (x1 - x0) + j) + d)%nat
        = items !! ((y0 + i) * (2 * W) + 2 * (x0 + j) + d)%nat).
      { intros d Hd.
        replace (2 * (i * (x1 - x0) + j) + d)%nat
          with (i * (2 * (x1 - x0)) + (2 * j + d))%nat by lia.
        rewrite (concat_lookup_shape _ _ _ _ _ Hsub') by lia.
        subst sub. rewrite item_slice2 by lia.
        subst data1. rewrite item_chunks by lia.
        subst part. rewrite lookup_take_lt by nia. f_equal; lia. }
      pose proof (Hidx 0%nat ltac:(lia)) as H0.
      pose proof (Hidx 1%nat ltac:(lia)) as H1.
      rewrite !Nat.add_0_r in H0. by rewrite H0, H1.
  - intros Hx Hx0 Hy0. rewrite reshape_wrong_size; [done|].
    rewrite Hflat. nia.
Qed.

End ComplexInt16.

(** Two lines of two complex samples, read with the box [(1, 0, 2, 2)] *)
Lemma read_complex_int16_window_example :
  exists data atr,
    read_complex_int16 (Examples.slc_world [1; 2; 3; 4; 5; 6; 7; 8]) "a.slc"
      (Some (1, 0, 2, 2)%nat) = Ok (data, atr)
    /\ Np.item data 1 0 = Some (7, 8).
Proof.
  destruct (attributes_at_keys (Examples.slc_world [1; 2; 3; 4; 5; 6; 7; 8])
              "a.slc" "2" "2" 2 2)
    as (atr & Hatr & HW & HL); [by vm_compute..|].
  destruct (read_complex_int16_window
              (Examples.slc_world [1; 2; 3; 4; 5; 6; 7; 8]) "a.slc" 1 0 2 2
              atr 2 2 [1; 2; 3; 4; 5; 6; 7; 8] Hatr HW HL eq_refl)
    as [H _]; [simpl; lia|lia|lia|].
  destruct H as (data & Hr & _ & Hitem); [lia|].
  exists data, atr. split; [done|]. by rewrite Hitem by lia.
Defined.

(** ** Boxes in [read]: unwrapped files and containers *)

Section ReadWindows.
Context {F image : Type} (hypot arctan2 : F -> F -> F).
Implicit Types (w : world F image) (atr : dict).



End ReadWindows.


